(** * Car wash simulation: a shallow embedding of [car-wash.py]

    The program is a discrete-time single-server queue.  Each class of the
    source becomes a module holding a record for the instance attributes and
    one function per method; the main loop of [simulation] is a fold of its
    body over [range(simulation_time)], threading the local objects and the
    state of the process-wide random generator.

    Conventions.
    - Python integers are [Z].
    - The values compared by [ArrivalGenerator.query] (a probability and a
      draw of [random.random()]) are rationals [Q]: Python compares numbers
      by their exact value, and every double is a rational.
    - [AverageTracker.average] performs a true division of two integers.
      Python returns the double nearest to the quotient, and raises
      [OverflowError] when the quotient leaves the range of doubles; here
      the quotient is kept as the exact rational.  No binary64 arithmetic is
      modelled: the statements below use the average only where it is exact
      (0, an integer, a half-integer), where a bound between integers
      survives rounding, or where only returning versus raising matters.
      The tracker holds integers, as it does in [simulation]; totals of
      floats are not modelled.
    - [print] is not modelled. *)

From Stdlib Require Import ZArith QArith List Bool Lia Sorted.
Import ListNotations.

Open Scope Z_scope.

(** ** Python results *)

(** The exceptions the modelled code can raise. *)
Inductive exn : Type :=
| ZeroDivisionError
| IndexError.

(** A call either returns a value or raises; nothing in the program catches
    an exception. *)
Inductive outcome (A : Type) : Type :=
| Return (a : A)
| Raise (e : exn).

Arguments Return {A} a.
Arguments Raise {A} e.

(** The values a method of the program can hand back where a truth value is
    expected.  A Python function whose body ends without [return] yields
    [None]. *)
Inductive pyval : Type :=
| PyTrue
| PyFalse
| PyNone.

(** [x == True] on those values. *)
Definition eq_True (x : pyval) : bool :=
  match x with
  | PyTrue => true
  | _ => false
  end.

(** ** The random generator

    [random.random()] draws from one generator shared by the whole process.
    Its state is modelled by the sequence of values it is going to yield and
    the number of values already consumed. *)

Record rng : Type := mk_rng { stream : nat -> Q; pos : nat }.

(** [random.random()]: the next value, and the generator afterwards. *)
Definition random_random (g : rng) : Q * rng :=
  (stream g (pos g), {| stream := stream g; pos := S (pos g) |}).

(** The generator after [n] draws. *)
Definition advance (n : nat) (g : rng) : rng :=
  {| stream := stream g; pos := (n + pos g)%nat |}.

(** [random.random()] yields values of the interval [0, 1). *)
Definition unit_draws (g : rng) : Prop :=
  forall n : nat, (0 <= stream g n)%Q /\ (stream g n < 1)%Q.

(** A generator yielding the same value forever. *)
Definition constant_rng (x : Q) : rng := {| stream := fun _ => x; pos := 0 |}.

(** ** The washer *)

Module Washer.

Record t : Type := mk { wash_time : Z; time_until_done : Z }.

(** [Washer.__init__] *)
Definition init (wash_time : Z) : t :=
  {| wash_time := wash_time; time_until_done := 0 |}.

(** [Washer.is_busy] *)
Definition is_busy (self : t) : bool :=
  if negb (time_until_done self =? 0) then true else false.

(** [Washer.start_washing] *)
Definition start_washing (self : t) : t :=
  if Bool.eqb (is_busy self) false
  then {| wash_time := wash_time self; time_until_done := wash_time self |}
  else self.

(** [Washer.one_second] *)
Definition one_second (self : t) : t :=
  if negb (time_until_done self =? 0)
  then {| wash_time := wash_time self;
          time_until_done := time_until_done self - 1 |}
  else self.

(** [k] successive calls of [one_second]. *)
Definition seconds (k : nat) (self : t) : t := Nat.iter k one_second self.

End Washer.

(** ** The arrival generator *)

Module ArrivalGenerator.

Record t : Type := mk { probability : Q }.

(** [ArrivalGenerator.__init__] *)
Definition init (prob : Q) : t := {| probability := prob |}.

(** [ArrivalGenerator.query].  The body is
    [while self.probability >= random.random(): return True]: the condition
    is evaluated once; when it holds the call returns [True], otherwise the
    loop is left and the function ends without a [return]. *)
Definition query (self : t) (g : rng) : pyval * rng :=
  let (x, g') := random_random g in
  if Qle_bool x (probability self) then (PyTrue, g') else (PyNone, g').

End ArrivalGenerator.

(** ** The average tracker *)

Module AverageTracker.

Record t : Type := mk { count : Z; sum_ : Z }.

(** [AverageTracker.__init__] *)
Definition init : t := {| count := 0; sum_ := 0 |}.

(** [AverageTracker.next_value] *)
Definition next_value (self : t) (val : Z) : t :=
  {| count := count self + 1; sum_ := sum_ self + val |}.

(** [AverageTracker.average]: the result of [self.sum_ / self.count] and the
    tracker after the call.  The value is the exact quotient, of which
    Python returns the nearest double. *)
Definition average (self : t) : outcome Q * t :=
  if count self =? 0
  then (Raise ZeroDivisionError, self)
  else (Return (inject_Z (sum_ self) / inject_Z (count self))%Q, self).

(** [AverageTracker.number_of_values] *)
Definition number_of_values (self : t) : Z := count self.

End AverageTracker.

(** ** The queue of timestamps

    A [collections.deque]; the head of the list is the left end. *)

Module deque.

Definition t : Type := list Z.

Definition empty : t := [].

(** [deque.appendleft] *)
Definition appendleft (x : Z) (d : t) : t := x :: d.

(** [deque.pop]: removes and returns the rightmost element. *)
Definition pop (d : t) : outcome Z * t :=
  match d with
  | [] => (Raise IndexError, d)
  | _ :: _ => (Return (last d 0), removelast d)
  end.

(** [len] *)
Definition len (d : t) : Z := Z.of_nat (length d).

End deque.

(** ** The simulation *)

(** The objects the loop of [simulation] works on, and the generator. *)
Record loop_state : Type := mk_loop_state {
  ws : Washer.t;
  avg_wash_time : AverageTracker.t;
  wash_deque : deque.t;
  gen : rng
}.

(** First statement of the loop body:
    [if arg.query() == True: wash_deque.appendleft(current_second)]. *)
Definition arrival_step (arg : ArrivalGenerator.t) (current_second : Z)
    (st : loop_state) : loop_state :=
  let (answer, g') := ArrivalGenerator.query arg (gen st) in
  {| ws := ws st;
     avg_wash_time := avg_wash_time st;
     wash_deque := if eq_True answer
                   then deque.appendleft current_second (wash_deque st)
                   else wash_deque st;
     gen := g' |}.

(** Second statement:
    [if ws.is_busy() == False and len(wash_deque) != 0:] pop a timestamp,
    send the waiting time to the tracker, start the washer. *)
Definition dispatch_step (current_second : Z) (st : loop_state)
    : outcome loop_state :=
  if Bool.eqb (Washer.is_busy (ws st)) false
     && negb (deque.len (wash_deque st) =? 0)
  then
    match deque.pop (wash_deque st) with
    | (Return timestamp, d') =>
        Return {| ws := Washer.start_washing (ws st);
                  avg_wash_time :=
                    AverageTracker.next_value (avg_wash_time st)
                                              (current_second - timestamp);
                  wash_deque := d';
                  gen := gen st |}
    | (Raise e, _) => Raise e
    end
  else Return st.

(** Third statement: [ws.one_second()]. *)
Definition tick_step (st : loop_state) : loop_state :=
  {| ws := Washer.one_second (ws st);
     avg_wash_time := avg_wash_time st;
     wash_deque := wash_deque st;
     gen := gen st |}.

(** The body of [for current_second in range(simulation_time)]. *)
Definition loop_body (arg : ArrivalGenerator.t) (current_second : Z)
    (st : loop_state) : outcome loop_state :=
  match dispatch_step current_second (arrival_step arg current_second st) with
  | Return st' => Return (tick_step st')
  | Raise e => Raise e
  end.

(** [range(n)] *)
Definition range (n : Z) : list Z := map Z.of_nat (seq 0 (Z.to_nat n)).

(** A [for] loop over a list of seconds; an exception ends it. *)
Fixpoint for_each (body : Z -> loop_state -> outcome loop_state)
    (seconds : list Z) (st : loop_state) : outcome loop_state :=
  match seconds with
  | [] => Return st
  | s :: rest =>
      match body s st with
      | Return st' => for_each body rest st'
      | Raise e => Raise e
      end
  end.

(** The objects [simulation] creates before its loop. *)
Definition initial_state (wash_time : Z) (g : rng) : loop_state :=
  {| ws := Washer.init wash_time;
     avg_wash_time := AverageTracker.init;
     wash_deque := deque.empty;
     gen := g |}.

(** The loop of [simulation] over [range(n)]. *)
Definition run_loop (prob : Q) (wash_time : Z) (g : rng) (n : Z)
    : outcome loop_state :=
  for_each (loop_body (ArrivalGenerator.init prob)) (range n)
           (initial_state wash_time g).

(** [simulation(prob, simulation_time, wash_time)]: the pair
    [(count, avg_time)] and the generator afterwards, or the exception. *)
Definition simulation (prob : Q) (simulation_time wash_time : Z) (g : rng)
    : outcome ((Z * Q) * rng) :=
  match run_loop prob wash_time g simulation_time with
  | Return st =>
      match AverageTracker.average (avg_wash_time st) with
      | (Return avg_time, tracker) =>
          let count := AverageTracker.number_of_values tracker in
          Return ((count, avg_time), gen st)
      | (Raise e, _) => Raise e
      end
  | Raise e => Raise e
  end.

(** ** Ten thousand runs *)

(** The literal [0.004]: the double nearest to 4/1000. *)
Definition float_0_004 : Q := 1152921504606847 # 288230376151711744.

(** [n] iterations of the loop of [ten_thousand_runs], from the lists built
    so far. *)
Fixpoint runs_loop (n : nat) (counts : list Z) (averages : list Q) (g : rng)
    : outcome ((list Z * list Q) * rng) :=
  match n with
  | O => Return ((counts, averages), g)
  | S n' =>
      match simulation float_0_004 6000 150 g with
      | Return ((count, avg_time), g') =>
          runs_loop n' (counts ++ [count]) (averages ++ [avg_time]) g'
      | Raise e => Raise e
      end
  end.

(** [ten_thousand_runs()] *)
Definition ten_thousand_runs (g : rng) : outcome ((list Z * list Q) * rng) :=
  runs_loop (Z.to_nat 10000) [] [] g.

(** ** Quantities of a run used in the statements *)

(** The seconds of [range(n)] at which [query] answers [True], in increasing
    order: the timestamps enqueued by a run of [n] seconds that starts with
    generator [g]. *)
Definition arrivals (prob : Q) (g : rng) (n : Z) : list Z :=
  filter (fun s => Qle_bool (stream g (pos g + Z.to_nat s)) prob) (range n).

(** The invariant of the loop of [simulation] after [n] seconds of a run that
    started with generator [g]: [n] values have been drawn, at most one car
    was sent to the washer per second, and the queue holds, oldest at the
    right end, the arrivals that follow those already sent. *)
Definition loop_inv (prob : Q) (g : rng) (n : nat) (st : loop_state) : Prop :=
  let served := AverageTracker.count (avg_wash_time st) in
  gen st = advance n g
  /\ 0 <= served <= Z.of_nat n
  /\ (Z.to_nat served <= length (arrivals prob g (Z.of_nat n)))%nat
  /\ rev (wash_deque st)
     = skipn (Z.to_nat served) (arrivals prob g (Z.of_nat n)).

(** [range(a, b)] for [0 <= a]. *)
Definition range_from (a b : Z) : list Z :=
  map Z.of_nat (seq (Z.to_nat a) (Z.to_nat b - Z.to_nat a)).

(** The number of draws one run of [ten_thousand_runs] consumes: one per
    second of [simulation(0.004, 6000, 150)]. *)
Definition draws_per_run : nat := Z.to_nat 6000.

(** ** The check of the tracker *)

(** [sum(values)] *)
Definition sum (values : list Z) : Z := fold_right Z.add 0 values.

(** [for val in values: at.next_value(val)] *)
Definition next_values (self : AverageTracker.t) (values : list Z)
    : AverageTracker.t :=
  fold_left AverageTracker.next_value values self.

(** * Properties *)

(** ** The washer *)

Section WasherFacts.

Import Washer.

Lemma is_busy_true (self : t) :
  is_busy self = true <-> time_until_done self <> 0.
Proof.
  unfold is_busy. destruct (Z.eqb_spec (time_until_done self) 0); simpl.
  - split; [discriminate | contradiction].
  - split; trivial.
Qed.

Lemma is_busy_false (self : t) :
  is_busy self = false <-> time_until_done self = 0.
Proof.
  unfold is_busy. destruct (Z.eqb_spec (time_until_done self) 0); simpl.
  - split; trivial.
  - split; [discriminate | contradiction].
Qed.

Lemma seconds_wash_time (k : nat) (self : t) :
  wash_time (seconds k self) = wash_time self.
Proof.
  induction k as [|k IH]; simpl; trivial.
  unfold one_second at 1.
  destruct (negb _); simpl; exact IH.
Qed.

(** The countdown after [k] seconds, for a washer that is not below zero. *)
Lemma seconds_countdown (k : nat) (self : t) :
  0 <= time_until_done self ->
  time_until_done (seconds k self)
  = Z.max 0 (time_until_done self - Z.of_nat k).
Proof.
  intros Hpos. induction k as [|k IH].
  - simpl. lia.
  - change (seconds (S k) self) with (one_second (seconds k self)).
    unfold one_second.
    destruct (Z.eqb_spec (time_until_done (seconds k self)) 0) as [E|E];
      simpl; lia.
Qed.

(** C5. For every wash time [d > 0]: a new washer is idle; once started it
    is busy, and after [k] calls of [one_second] it is still busy exactly
    when [k < d] (it turns idle on the [d]-th call and stays idle); a further
    [start_washing] on the idle washer makes it busy again. *)
Theorem busy_for_exactly_wash_time (d : Z) (Hd : 0 < d) :
  is_busy (init d) = false
  /\ is_busy (start_washing (init d)) = true
  /\ (forall k : nat,
         is_busy (seconds k (start_washing (init d))) = (Z.of_nat k <? d))
  /\ (forall k : nat,
         d <= Z.of_nat k ->
         is_busy (start_washing (seconds k (start_washing (init d)))) = true).
Proof.
  assert (Hstart : start_washing (init d) = mk d d) by reflexivity.
  assert (Hk : forall k : nat,
             time_until_done (seconds k (mk d d))
             = Z.max 0 (d - Z.of_nat k)).
  { intros k. rewrite seconds_countdown; simpl; lia. }
  repeat split.
  - rewrite Hstart. apply is_busy_true. simpl. lia.
  - intros k. rewrite Hstart.
    destruct (Z.ltb_spec (Z.of_nat k) d) as [L|L].
    + apply is_busy_true. rewrite Hk. lia.
    + apply is_busy_false. rewrite Hk. lia.
  - intros k Hle. rewrite Hstart.
    assert (Hidle : is_busy (seconds k (mk d d)) = false).
    { apply is_busy_false. rewrite Hk. lia. }
    unfold start_washing. rewrite Hidle. simpl.
    apply is_busy_true. simpl. rewrite seconds_wash_time. simpl. lia.
Qed.

Lemma busy_for_exactly_wash_time_witness :
  is_busy (init 3) = false
  /\ is_busy (start_washing (init 3)) = true
  /\ (forall k : nat,
         is_busy (seconds k (start_washing (init 3))) = (Z.of_nat k <? 3))
  /\ (forall k : nat,
         3 <= Z.of_nat k ->
         is_busy (start_washing (seconds k (start_washing (init 3)))) = true).
Proof. apply (busy_for_exactly_wash_time 3). reflexivity. Defined.

(** C6. On a busy washer ([time_until_done > 0]) [start_washing] changes
    nothing: the countdown is neither reset nor extended, and [wash_time]
    is kept. *)
Theorem start_washing_busy_noop (self : t) (Hbusy : 0 < time_until_done self) :
  start_washing self = self.
Proof.
  unfold start_washing.
  assert (B : is_busy self = true) by (apply is_busy_true; lia).
  rewrite B. reflexivity.
Qed.

Lemma start_washing_busy_noop_witness :
  start_washing (mk 150 7) = mk 150 7.
Proof. apply start_washing_busy_noop. reflexivity. Defined.

End WasherFacts.

(** ** The arrival generator *)

Section ArrivalFacts.

Import ArrivalGenerator.

(** What [query] does: it answers [True] exactly when the draw is at most
    the probability, and [None] otherwise; one value is drawn per call. *)
Lemma query_spec (self : t) (g : rng) :
  query self g
  = (if Qle_bool (stream g (pos g)) (probability self) then PyTrue else PyNone,
     advance 1 g).
Proof.
  unfold query, random_random, advance. simpl.
  destruct (Qle_bool _ _); reflexivity.
Qed.

Lemma query_True_iff (self : t) (g : rng) :
  fst (query self g) = PyTrue <-> (stream g (pos g) <= probability self)%Q.
Proof.
  rewrite query_spec. simpl. rewrite <- Qle_bool_iff.
  destruct (Qle_bool _ _); split; congruence.
Qed.

Lemma query_never_False (self : t) (g : rng) :
  fst (query self g) <> PyFalse.
Proof.
  rewrite query_spec. simpl. destruct (Qle_bool _ _); discriminate.
Qed.

(** With probability 1 every draw of [0, 1) is answered [True]. *)
Lemma query_probability_one (g : rng) :
  unit_draws g -> fst (query (init 1) g) = PyTrue.
Proof.
  intros U. apply query_True_iff. simpl.
  apply Qlt_le_weak, (U (pos g)).
Qed.

(** C1, at the input where the code departs from it.  With probability 0 and
    a draw of 0.0 the comparison [0 >= 0.0] holds and [query] returns [True],
    although the draw is not strictly below the probability. *)
Theorem query_zero_probability_zero_draw :
  unit_draws (constant_rng 0)
  /\ fst (query (init 0) (constant_rng 0)) = PyTrue
  /\ ~ (stream (constant_rng 0) (pos (constant_rng 0)) < probability (init 0))%Q.
Proof.
  split; [| split].
  - intros n. simpl. split; [apply Qle_refl | reflexivity].
  - reflexivity.
  - simpl. apply Qlt_irrefl.
Qed.

(** C2, at an input where the code departs from it.  With probability 0.5
    and a draw of 0.75, [query] ends without [return]: the caller receives
    [None], not [False]. *)
Theorem query_returns_None_not_False :
  unit_draws (constant_rng (3 # 4))
  /\ fst (query (init (1 # 2)) (constant_rng (3 # 4))) = PyNone
  /\ fst (query (init (1 # 2)) (constant_rng (3 # 4))) <> PyFalse.
Proof.
  split; [| split].
  - intros n. simpl. split; [discriminate | reflexivity].
  - reflexivity.
  - discriminate.
Qed.

End ArrivalFacts.

(** ** The loop of the simulation *)

Section ListFacts.

Lemma rev_cons_last (d : list Z) (x : Z) (rest : list Z) :
  rev d = x :: rest -> last d 0 = x /\ removelast d = rev rest.
Proof.
  intros H.
  assert (E : d = rev rest ++ [x]).
  { rewrite <- (rev_involutive d), H. reflexivity. }
  subst d. split.
  - apply last_last.
  - apply removelast_last.
Qed.

Lemma skipn_cons_nth (c : nat) (l : list Z) (x : Z) (rest : list Z) :
  skipn c l = x :: rest ->
  nth_error l c = Some x /\ skipn (S c) l = rest /\ (c < length l)%nat.
Proof.
  revert l. induction c as [|c IH]; intros l H.
  - destruct l as [|y l]; simpl in H; [discriminate |].
    injection H as -> ->. simpl. repeat split. lia.
  - destruct l as [|y l]; simpl in H; [discriminate |].
    destruct (IH l H) as (A & B & C).
    repeat split; [exact A | exact B | simpl; lia].
Qed.

Lemma skipn_app_short (c : nat) (l extra : list Z) :
  (c <= length l)%nat -> skipn c (l ++ extra) = skipn c l ++ extra.
Proof.
  intros H. rewrite skipn_app.
  replace (c - length l)%nat with 0%nat by lia. reflexivity.
Qed.

Lemma range_succ (n : nat) :
  range (Z.of_nat (S n)) = range (Z.of_nat n) ++ [Z.of_nat n].
Proof.
  unfold range. rewrite !Nat2Z.id, seq_S, map_app. reflexivity.
Qed.

Lemma range_length (n : nat) : length (range (Z.of_nat n)) = n.
Proof.
  unfold range. rewrite length_map, length_seq, Nat2Z.id. reflexivity.
Qed.

End ListFacts.

Section LoopFacts.

Variable prob : Q.

Lemma for_each_app (body : Z -> loop_state -> outcome loop_state)
    (l1 l2 : list Z) (st : loop_state) :
  for_each body (l1 ++ l2) st
  = match for_each body l1 st with
    | Return st' => for_each body l2 st'
    | Raise e => Raise e
    end.
Proof.
  revert st. induction l1 as [|s l1 IH]; intros st; simpl.
  - reflexivity.
  - destruct (body s st); [apply IH | reflexivity].
Qed.

Lemma arrivals_succ (g : rng) (n : nat) :
  arrivals prob g (Z.of_nat (S n))
  = arrivals prob g (Z.of_nat n)
    ++ (if Qle_bool (stream g (pos g + n)) prob then [Z.of_nat n] else []).
Proof.
  unfold arrivals. rewrite range_succ, filter_app. simpl.
  rewrite Nat2Z.id. reflexivity.
Qed.

Lemma arrival_step_spec (current_second : Z) (st : loop_state) :
  arrival_step (ArrivalGenerator.init prob) current_second st
  = {| ws := ws st;
       avg_wash_time := avg_wash_time st;
       wash_deque :=
         if Qle_bool (stream (gen st) (pos (gen st))) prob
         then current_second :: wash_deque st
         else wash_deque st;
       gen := advance 1 (gen st) |}.
Proof.
  unfold arrival_step. rewrite query_spec. simpl.
  destruct (Qle_bool _ _); reflexivity.
Qed.

(** The second statement when the washer is idle and a car is waiting. *)
Lemma dispatch_step_pops (current_second : Z) (st : loop_state) :
  Washer.is_busy (ws st) = false ->
  wash_deque st <> [] ->
  dispatch_step current_second st
  = Return {| ws := Washer.start_washing (ws st);
              avg_wash_time :=
                AverageTracker.next_value
                  (avg_wash_time st)
                  (current_second - last (wash_deque st) 0);
              wash_deque := removelast (wash_deque st);
              gen := gen st |}.
Proof.
  intros Hidle Hne. unfold dispatch_step. rewrite Hidle.
  destruct (wash_deque st) as [|x d] eqn:E; [contradiction |].
  reflexivity.
Qed.

(** The second statement when the washer is busy or nobody is waiting. *)
Lemma dispatch_step_skips (current_second : Z) (st : loop_state) :
  Washer.is_busy (ws st) = true \/ wash_deque st = [] ->
  dispatch_step current_second st = Return st.
Proof.
  intros [Hbusy | Hempty]; unfold dispatch_step.
  - rewrite Hbusy. reflexivity.
  - rewrite Hempty. simpl. rewrite andb_false_r. reflexivity.
Qed.

Lemma dispatch_step_cases (current_second : Z) (st : loop_state) :
  (Washer.is_busy (ws st) = false /\ wash_deque st <> [])
  \/ (Washer.is_busy (ws st) = true \/ wash_deque st = []).
Proof.
  destruct (Washer.is_busy (ws st)); [right; left; reflexivity |].
  destruct (wash_deque st); [right; right; reflexivity |].
  left. split; [reflexivity | discriminate].
Qed.

(** The invariant before the second statement of second [n]: the first
    statement has drawn one value and enqueued [n] if a car arrived. *)
Lemma arrival_step_inv (g : rng) (n : nat) (st : loop_state) :
  loop_inv prob g n st ->
  let st1 := arrival_step (ArrivalGenerator.init prob) (Z.of_nat n) st in
  let served := AverageTracker.count (avg_wash_time st) in
  gen st1 = advance (S n) g
  /\ ws st1 = ws st
  /\ avg_wash_time st1 = avg_wash_time st
  /\ rev (wash_deque st1)
     = skipn (Z.to_nat served) (arrivals prob g (Z.of_nat (S n))).
Proof.
  intros (Hgen & Hcount & Hlen & Hq). rewrite arrival_step_spec.
  cbn [gen ws avg_wash_time wash_deque]. rewrite Hgen.
  repeat split.
  rewrite arrivals_succ, skipn_app_short by exact Hlen.
  rewrite <- Hq. cbn [advance stream pos]. rewrite (Nat.add_comm n).
  destruct (Qle_bool _ _).
  - reflexivity.
  - rewrite app_nil_r. reflexivity.
Qed.

Lemma arrivals_length_mono (g : rng) (n : nat) :
  (length (arrivals prob g (Z.of_nat n))
   <= length (arrivals prob g (Z.of_nat (S n))))%nat.
Proof.
  rewrite arrivals_succ, length_app. lia.
Qed.

(** One pass through the loop body keeps the invariant and never raises. *)
Lemma loop_body_inv (g : rng) (n : nat) (st : loop_state) :
  loop_inv prob g n st ->
  exists st',
    loop_body (ArrivalGenerator.init prob) (Z.of_nat n) st = Return st'
    /\ loop_inv prob g (S n) st'.
Proof.
  intros Hinv.
  destruct (arrival_step_inv g n st Hinv) as (Hgen & Hws & Havg & Hq).
  destruct Hinv as (_ & Hcount & Hlen & _).
  pose proof (arrivals_length_mono g n) as Hmono.
  unfold loop_body.
  set (st1 := arrival_step (ArrivalGenerator.init prob) (Z.of_nat n) st) in *.
  destruct (dispatch_step_cases (Z.of_nat n) st1) as [[Hidle Hne] | Hskip].
  - rewrite dispatch_step_pops by assumption.
    eexists. split; [reflexivity |].
    destruct (rev (wash_deque st1)) as [|x rest] eqn:Hrev.
    { apply (f_equal (@rev Z)) in Hrev. rewrite rev_involutive in Hrev.
      contradiction. }
    destruct (rev_cons_last _ _ _ Hrev) as [_ Hrm].
    symmetry in Hq.
    destruct (skipn_cons_nth _ _ _ _ Hq) as (_ & Hskip & Hlt).
    unfold loop_inv, tick_step.
    cbn [gen ws avg_wash_time wash_deque
         AverageTracker.next_value AverageTracker.count].
    rewrite Havg.
    replace (Z.to_nat (AverageTracker.count (avg_wash_time st) + 1))
      with (S (Z.to_nat (AverageTracker.count (avg_wash_time st)))) by lia.
    repeat split; try lia; try assumption.
    rewrite Hrm, rev_involutive. symmetry. exact Hskip.
  - rewrite dispatch_step_skips by assumption.
    eexists. split; [reflexivity |].
    unfold loop_inv, tick_step.
    cbn [gen ws avg_wash_time wash_deque]. rewrite Havg.
    repeat split; try lia; assumption.
Qed.

Lemma advance_0 (g : rng) : advance 0 g = g.
Proof. destruct g. reflexivity. Qed.

Lemma advance_advance (a b : nat) (g : rng) :
  advance a (advance b g) = advance (a + b) g.
Proof. unfold advance. simpl. f_equal. lia. Qed.

(** The loop of [simulation] never raises, and the invariant holds after any
    number of seconds. *)
Lemma run_loop_inv (wash_time : Z) (g : rng) (n : nat) :
  exists st,
    run_loop prob wash_time g (Z.of_nat n) = Return st
    /\ loop_inv prob g n st.
Proof.
  induction n as [|n (st & Hrun & Hinv)].
  - eexists. split; [reflexivity |].
    unfold loop_inv. simpl. rewrite advance_0.
    repeat split; lia.
  - destruct (loop_body_inv g n st Hinv) as (st' & Hbody & Hinv').
    exists st'. split; [| exact Hinv'].
    unfold run_loop in *. rewrite range_succ, for_each_app, Hrun.
    simpl. rewrite Hbody. reflexivity.
Qed.

Lemma run_loop_succ (wash_time : Z) (g : rng) (n : nat) :
  run_loop prob wash_time g (Z.of_nat (S n))
  = match run_loop prob wash_time g (Z.of_nat n) with
    | Return st => loop_body (ArrivalGenerator.init prob) (Z.of_nat n) st
    | Raise e => Raise e
    end.
Proof.
  unfold run_loop. rewrite range_succ, for_each_app.
  destruct (for_each _ (range (Z.of_nat n)) _) as [st|e]; [| reflexivity].
  simpl. destruct (loop_body _ _ st); reflexivity.
Qed.

Lemma range_split (a b : nat) :
  (a <= b)%nat ->
  range (Z.of_nat b)
  = range (Z.of_nat a) ++ range_from (Z.of_nat a) (Z.of_nat b).
Proof.
  intros Hab. unfold range, range_from. rewrite !Nat2Z.id.
  replace b with (a + (b - a))%nat at 1 by lia.
  rewrite seq_app, map_app. reflexivity.
Qed.

(** A run of [b] seconds goes through the state reached after [a <= b]
    seconds. *)
Lemma run_loop_through (wash_time : Z) (g : rng) (a b : nat) :
  (a <= b)%nat ->
  run_loop prob wash_time g (Z.of_nat b)
  = match run_loop prob wash_time g (Z.of_nat a) with
    | Return st =>
        for_each (loop_body (ArrivalGenerator.init prob))
                 (range_from (Z.of_nat a) (Z.of_nat b)) st
    | Raise e => Raise e
    end.
Proof.
  intros Hab. unfold run_loop.
  rewrite (range_split a b Hab), for_each_app. reflexivity.
Qed.

Lemma arrivals_prefix (g : rng) (a b : nat) :
  (a <= b)%nat ->
  exists later,
    arrivals prob g (Z.of_nat b) = arrivals prob g (Z.of_nat a) ++ later.
Proof.
  intros Hab. unfold arrivals.
  rewrite (range_split a b Hab), filter_app. eexists. reflexivity.
Qed.

(** The tracker receives at most one value per pass through the body. *)
Lemma loop_body_count (arg : ArrivalGenerator.t) (current_second : Z)
    (st st' : loop_state) :
  loop_body arg current_second st = Return st' ->
  AverageTracker.count (avg_wash_time st)
  <= AverageTracker.count (avg_wash_time st')
  <= AverageTracker.count (avg_wash_time st) + 1.
Proof.
  unfold loop_body, dispatch_step, arrival_step.
  destruct (ArrivalGenerator.query arg (gen st)) as [answer g'].
  cbn [ws avg_wash_time wash_deque gen].
  destruct (_ && _).
  - destruct (deque.pop _) as [[timestamp|e] d']; [| discriminate].
    intros [= <-]. simpl. lia.
  - intros [= <-]. simpl. lia.
Qed.

(** [simulation] returns exactly when its tracker received a value; it then
    has drawn one value per second. *)
Lemma simulation_returns (simulation_time wash_time : Z) (g : rng)
    (count : Z) (avg_time : Q) (g' : rng) :
  simulation prob simulation_time wash_time g
  = Return ((count, avg_time), g') ->
  exists st,
    run_loop prob wash_time g simulation_time = Return st
    /\ loop_inv prob g (Z.to_nat simulation_time) st
    /\ count = AverageTracker.count (avg_wash_time st)
    /\ count <> 0
    /\ g' = advance (Z.to_nat simulation_time) g.
Proof.
  unfold simulation. intros H.
  destruct (run_loop_inv wash_time g (Z.to_nat simulation_time))
    as (st & Hrun & Hinv).
  assert (E : run_loop prob wash_time g simulation_time = Return st).
  { unfold run_loop in *. unfold range in *.
    rewrite Nat2Z.id in Hrun. exact Hrun. }
  rewrite E in H. unfold AverageTracker.average in H.
  destruct (Z.eqb_spec (AverageTracker.count (avg_wash_time st)) 0) as [Z0|NZ];
    [discriminate |].
  injection H as <- _ <-.
  exists st. split; [exact E |]. split; [exact Hinv |].
  split; [reflexivity |]. split; [exact NZ |].
  apply Hinv.
Qed.

End LoopFacts.

(** ** The simulation *)

Section SimulationFacts.

Lemma constant_rng_unit (x : Q) :
  (0 <= x)%Q -> (x < 1)%Q -> unit_draws (constant_rng x).
Proof. intros H0 H1 n. simpl. split; assumption. Qed.

(** C3, at inputs where the code departs from it.  With probability 0 and
    draws of 0.5 nobody arrives in 100 seconds, and [simulation] does not
    return a count of 0: the division in [average] raises
    [ZeroDivisionError].  With draws of 0.0 the comparison of [query] holds at
    every second, and the run returns having washed 10 cars. *)
Theorem simulation_zero_probability :
  simulation 0 100 10 (constant_rng (1 # 2)) = Raise ZeroDivisionError
  /\ simulation 0 100 10 (constant_rng 0)
     = Return ((10, 405 # 10), advance 100 (constant_rng 0)).
Proof. split; vm_compute; reflexivity. Qed.

(** No run of [simulation] returns a count of 0, whatever its arguments. *)
Lemma simulation_never_returns_zero (prob : Q) (simulation_time wash_time : Z)
    (g : rng) (count : Z) (avg_time : Q) (g' : rng) :
  simulation prob simulation_time wash_time g = Return ((count, avg_time), g') ->
  count <> 0.
Proof.
  intros H. destruct (simulation_returns _ _ _ _ _ _ _ H) as (st & _ & _ & _ & NZ & _).
  exact NZ.
Qed.

(** C7. Take any second [t] of a run of [simulation_time] seconds, and the
    state [st] the loop is in when that second begins.  After the first
    statement of the body, if the washer is idle and the queue is not empty,
    the second statement removes the rightmost timestamp of the queue, which
    is the arrival of the run of rank [served] (counting from 0), [served]
    being the number of cars sent to the washer before: cars leave in the
    order they came.  It sends [t - timestamp] to the tracker and starts the
    washer.  If the washer is busy or the queue is empty the second statement
    changes nothing. *)
Theorem dispatch_is_fifo (prob : Q) (wash_time : Z) (g : rng)
    (simulation_time t : Z) (Ht : 0 <= t < simulation_time) :
  exists st : loop_state,
    run_loop prob wash_time g t = Return st
    /\ run_loop prob wash_time g simulation_time
       = match loop_body (ArrivalGenerator.init prob) t st with
         | Return st' =>
             for_each (loop_body (ArrivalGenerator.init prob))
                      (range_from (t + 1) simulation_time) st'
         | Raise e => Raise e
         end
    /\ let st1 := arrival_step (ArrivalGenerator.init prob) t st in
       let served := Z.to_nat (AverageTracker.count (avg_wash_time st)) in
       (Washer.is_busy (ws st1) = false ->
        wash_deque st1 <> [] ->
        exists timestamp : Z,
          nth_error (arrivals prob g simulation_time) served = Some timestamp
          /\ last (wash_deque st1) 0 = timestamp
          /\ dispatch_step t st1
             = Return {| ws := Washer.start_washing (ws st1);
                         avg_wash_time :=
                           AverageTracker.next_value (avg_wash_time st1)
                                                     (t - timestamp);
                         wash_deque := removelast (wash_deque st1);
                         gen := gen st1 |})
       /\ (Washer.is_busy (ws st1) = true \/ wash_deque st1 = [] ->
           dispatch_step t st1 = Return st1).
Proof.
  rewrite <- (Z2Nat.id t) by lia.
  rewrite <- (Z2Nat.id simulation_time) by lia.
  set (n := Z.to_nat t). set (N := Z.to_nat simulation_time).
  assert (HnN : (S n <= N)%nat) by lia.
  destruct (run_loop_inv prob wash_time g n) as (st & Hrun & Hinv).
  exists st. split; [exact Hrun |]. split.
  - rewrite (run_loop_through prob wash_time g (S n) N HnN).
    rewrite run_loop_succ, Hrun.
    replace (Z.of_nat n + 1) with (Z.of_nat (S n)) by lia.
    reflexivity.
  - intros st1 served.
    destruct (arrival_step_inv prob g n st Hinv) as (_ & _ & Havg & Hq).
    fold st1 in Hq, Havg. fold served in Hq.
    split.
    + intros Hidle Hne.
      destruct (rev (wash_deque st1)) as [|x rest] eqn:Hrev.
      { apply (f_equal (@rev Z)) in Hrev. rewrite rev_involutive in Hrev.
        contradiction. }
      destruct (rev_cons_last _ _ _ Hrev) as [Hlast _].
      symmetry in Hq.
      destruct (skipn_cons_nth _ _ _ _ Hq) as (Hnth & _ & Hlt).
      exists x. split; [| split].
      * destruct (arrivals_prefix prob g (S n) N HnN) as (later & ->).
        rewrite nth_error_app1 by exact Hlt. exact Hnth.
      * exact Hlast.
      * rewrite dispatch_step_pops by assumption. rewrite Hlast. reflexivity.
    + apply dispatch_step_skips.
Qed.

Lemma dispatch_is_fifo_witness :
  exists st : loop_state,
    run_loop 1 2 (constant_rng 0) 2 = Return st
    /\ nth_error (arrivals 1 (constant_rng 0) 3) 1 = Some 1
    /\ dispatch_step 2 (arrival_step (ArrivalGenerator.init 1) 2 st)
       = Return {| ws := Washer.mk 2 2;
                   avg_wash_time := AverageTracker.mk 2 1;
                   wash_deque := [2];
                   gen := advance 3 (constant_rng 0) |}.
Proof.
  destruct (dispatch_is_fifo 1 2 (constant_rng 0) 3 2 ltac:(lia))
    as (st & Hrun & _ & Hpop & _).
  exists st. split; [exact Hrun |].
  assert (Hst : st = {| ws := Washer.mk 2 0;
                        avg_wash_time := AverageTracker.mk 1 0;
                        wash_deque := [1];
                        gen := advance 2 (constant_rng 0) |}).
  { vm_compute in Hrun. injection Hrun as <-. reflexivity. }
  subst st.
  destruct (Hpop eq_refl ltac:(discriminate)) as (timestamp & Hnth & Hlast & Hd).
  vm_compute in Hlast. subst timestamp.
  split; [exact Hnth | exact Hd].
Defined.

(** C8. The body of the loop runs its three statements in the order arrival,
    dispatch, tick.  Hence a car that arrives at second [t] while the washer
    is idle and the queue empty is sent to the washer in that same second:
    the tracker receives the waiting time 0 and the queue is empty again.  In
    particular [simulation(1, 1, 100)] returns a count of 1 and an average
    of 0, the tracker holding the single waiting time 0. *)
Theorem same_second_dispatch (prob : Q) (t : Z) (st : loop_state) (g : rng)
    (Harrival : fst (ArrivalGenerator.query (ArrivalGenerator.init prob)
                                            (gen st)) = PyTrue)
    (Hidle : Washer.is_busy (ws st) = false)
    (Hempty : wash_deque st = [])
    (Hdraws : unit_draws g) :
  (forall arg s st0,
      loop_body arg s st0
      = match dispatch_step s (arrival_step arg s st0) with
        | Return st' => Return (tick_step st')
        | Raise e => Raise e
        end)
  /\ loop_body (ArrivalGenerator.init prob) t st
     = Return {| ws := Washer.one_second (Washer.start_washing (ws st));
                 avg_wash_time :=
                   AverageTracker.next_value (avg_wash_time st) 0;
                 wash_deque := [];
                 gen := advance 1 (gen st) |}
  /\ run_loop 1 100 g 1
     = Return {| ws := Washer.mk 100 99;
                 avg_wash_time := AverageTracker.mk 1 0;
                 wash_deque := [];
                 gen := advance 1 g |}
  /\ simulation 1 1 100 g = Return ((1, 0%Q), advance 1 g).
Proof.
  split; [reflexivity |]. split.
  - apply query_True_iff in Harrival. apply Qle_bool_iff in Harrival.
    simpl in Harrival.
    unfold loop_body. rewrite arrival_step_spec, Harrival, Hempty.
    rewrite dispatch_step_pops by (simpl; congruence).
    unfold tick_step. simpl. rewrite Z.sub_diag. reflexivity.
  - assert (Hfirst : Qle_bool (stream g (pos g)) 1 = true).
    { apply Qle_bool_iff, Qlt_le_weak, (Hdraws (pos g)). }
    assert (Hloop : run_loop 1 100 g 1
                    = Return {| ws := Washer.mk 100 99;
                                avg_wash_time := AverageTracker.mk 1 0;
                                wash_deque := [];
                                gen := advance 1 g |}).
    { unfold run_loop, range. simpl. unfold loop_body.
      rewrite arrival_step_spec. simpl. rewrite Hfirst. reflexivity. }
    split; [exact Hloop |].
    unfold simulation. rewrite Hloop. reflexivity.
Qed.

Lemma same_second_dispatch_witness :
  loop_body (ArrivalGenerator.init 1) 7 (initial_state 100 (constant_rng 0))
  = Return {| ws := Washer.mk 100 99;
              avg_wash_time := AverageTracker.mk 1 0;
              wash_deque := [];
              gen := advance 1 (constant_rng 0) |}
  /\ simulation 1 1 100 (constant_rng 0)
     = Return ((1, 0%Q), advance 1 (constant_rng 0)).
Proof.
  destruct (same_second_dispatch
              1 7 (initial_state 100 (constant_rng 0)) (constant_rng 0)
              eq_refl eq_refl eq_refl
              (constant_rng_unit 0 (Qle_refl 0) eq_refl))
    as (_ & Hbody & _ & Hsim).
  split; [exact Hbody | exact Hsim].
Defined.

(** C10. Whenever [simulation] returns, with [simulation_time >= 0], the
    count it returns is at most [simulation_time]; and in every second of
    the run the tracker receives at most one value. *)
Theorem served_at_most_simulation_time (prob : Q)
    (simulation_time wash_time : Z) (g : rng)
    (count : Z) (avg_time : Q) (g' : rng)
    (Htime : 0 <= simulation_time)
    (Hrun : simulation prob simulation_time wash_time g
            = Return ((count, avg_time), g')) :
  count <= simulation_time
  /\ forall t : Z,
      0 <= t < simulation_time ->
      exists st st' : loop_state,
        run_loop prob wash_time g t = Return st
        /\ loop_body (ArrivalGenerator.init prob) t st = Return st'
        /\ run_loop prob wash_time g (t + 1) = Return st'
        /\ AverageTracker.count (avg_wash_time st)
           <= AverageTracker.count (avg_wash_time st')
           <= AverageTracker.count (avg_wash_time st) + 1.
Proof.
  split.
  - destruct (simulation_returns _ _ _ _ _ _ _ Hrun)
      as (st & _ & Hinv & -> & _ & _).
    destruct Hinv as (_ & Hcount & _). lia.
  - intros t Ht.
    rewrite <- (Z2Nat.id t) by lia. set (n := Z.to_nat t).
    destruct (run_loop_inv prob wash_time g n) as (st & Hst & Hinv).
    destruct (loop_body_inv prob g n st Hinv) as (st' & Hbody & _).
    exists st, st'. split; [exact Hst |]. split; [exact Hbody |]. split.
    + replace (Z.of_nat n + 1) with (Z.of_nat (S n)) by lia.
      rewrite run_loop_succ, Hst. exact Hbody.
    + exact (loop_body_count _ _ _ _ Hbody).
Qed.

Lemma served_at_most_simulation_time_witness :
  simulation 1 100 10 (constant_rng 0)
  = Return ((10, 405 # 10), advance 100 (constant_rng 0))
  /\ 10 <= 100.
Proof.
  assert (Hrun : simulation 1 100 10 (constant_rng 0)
                 = Return ((10, 405 # 10), advance 100 (constant_rng 0)))
    by (vm_compute; reflexivity).
  split; [exact Hrun |].
  apply (served_at_most_simulation_time
           1 100 10 (constant_rng 0) 10 (405 # 10)
           (advance 100 (constant_rng 0))); [lia | exact Hrun].
Defined.

End SimulationFacts.

(** ** Ten thousand runs *)

Section BatchFacts.

(** The loop of [ten_thousand_runs], for any number [n] of iterations: when
    each of the [n] runs returns, the loop returns the lists it was given,
    extended by the [n] counts and the [n] averages in the order of the
    runs. *)
Lemma runs_loop_spec (n : nat) :
  forall (g : rng) (cs : list Z) (avs : list Q),
    (forall i : nat,
        (i < n)%nat ->
        exists r g',
          simulation float_0_004 6000 150 (advance (i * draws_per_run) g)
          = Return (r, g')) ->
    exists (counts : list Z) (averages : list Q),
      runs_loop n cs avs g
      = Return ((cs ++ counts, avs ++ averages),
                advance (n * draws_per_run) g)
      /\ length counts = n
      /\ length averages = n
      /\ forall i : nat,
          (i < n)%nat ->
          simulation float_0_004 6000 150 (advance (i * draws_per_run) g)
          = Return ((nth i counts 0, nth i averages 0%Q),
                    advance (S i * draws_per_run) g).
Proof.
  induction n as [|n IH]; intros g cs avs Hruns.
  - exists [], []. rewrite !app_nil_r. cbn [runs_loop Nat.mul].
    rewrite advance_0. repeat split. intros i Hi. lia.
  - destruct (Hruns 0%nat ltac:(lia)) as ([c a] & g1' & Hfirst).
    cbn [Nat.mul] in Hfirst. rewrite advance_0 in Hfirst.
    assert (Hg1 : g1' = advance draws_per_run g).
    { destruct (simulation_returns _ _ _ _ _ _ _ Hfirst)
        as (_ & _ & _ & _ & _ & E). exact E. }
    subst g1'.
    destruct (IH (advance draws_per_run g) (cs ++ [c]) (avs ++ [a]))
      as (counts & averages & Hloop & Hlc & Hla & Hnth).
    { intros i Hi. rewrite advance_advance.
      replace (i * draws_per_run + draws_per_run)%nat
        with (S i * draws_per_run)%nat by lia.
      apply Hruns. lia. }
    exists (c :: counts), (a :: averages).
    split; [| split; [| split]].
    + cbn [runs_loop]. rewrite Hfirst, Hloop.
      rewrite <- !app_assoc, advance_advance.
      replace (n * draws_per_run + draws_per_run)%nat
        with (S n * draws_per_run)%nat by lia.
      reflexivity.
    + simpl. congruence.
    + simpl. congruence.
    + intros [|i] Hi.
      * cbn [Nat.mul nth]. rewrite advance_0, Nat.add_0_r. exact Hfirst.
      * cbn [nth]. specialize (Hnth i ltac:(lia)).
        rewrite advance_advance in Hnth.
        replace (i * draws_per_run + draws_per_run)%nat
          with (S i * draws_per_run)%nat in Hnth by lia.
        rewrite Hnth, advance_advance. f_equal. f_equal. f_equal. lia.
Qed.

(** With draws of 0.0 a car arrives every second, and every run of
    [simulation(0.004, 6000, 150)] washes 40 cars. *)
Lemma simulation_constant_zero (k : nat) :
  exists r g',
    simulation float_0_004 6000 150 (advance k (constant_rng 0))
    = Return (r, g').
Proof.
  exists (40, 116220 # 40), (advance draws_per_run (advance k (constant_rng 0))).
  vm_compute. reflexivity.
Qed.

(** With draws of 0.5 nobody ever arrives: the first run raises, and so
    does [ten_thousand_runs]. *)
Lemma ten_thousand_runs_can_raise :
  ten_thousand_runs (constant_rng (1 # 2)) = Raise ZeroDivisionError.
Proof. vm_compute. reflexivity. Qed.

(** C9, as the code has it.  [ten_thousand_runs] takes no number of runs: it
    always makes 10000 runs of [simulation(0.004, 6000, 150)], run [i]
    starting where run [i - 1] left the generator.  Whenever each of these
    runs returns, [ten_thousand_runs] returns two lists of length exactly
    10000 such that, for every [i], [counts[i]] and [averages[i]] are the
    pair returned by run [i]. *)
Theorem ten_thousand_runs_aligned (g : rng)
    (Hruns : forall i : nat,
        (i < Z.to_nat 10000)%nat ->
        exists r g',
          simulation float_0_004 6000 150 (advance (i * draws_per_run) g)
          = Return (r, g')) :
  exists (counts : list Z) (averages : list Q) (g' : rng),
    ten_thousand_runs g = Return ((counts, averages), g')
    /\ length counts = Z.to_nat 10000
    /\ length averages = Z.to_nat 10000
    /\ forall i : nat,
        (i < Z.to_nat 10000)%nat ->
        simulation float_0_004 6000 150 (advance (i * draws_per_run) g)
        = Return ((nth i counts 0, nth i averages 0%Q),
                  advance (S i * draws_per_run) g).
Proof.
  destruct (runs_loop_spec (Z.to_nat 10000) g [] [] Hruns)
    as (counts & averages & Hloop & Hlc & Hla & Hnth).
  exists counts, averages, (advance (Z.to_nat 10000 * draws_per_run) g).
  split; [exact Hloop |]. split; [exact Hlc |]. split; [exact Hla |].
  exact Hnth.
Qed.

Lemma ten_thousand_runs_aligned_witness :
  exists (counts : list Z) (averages : list Q) (g' : rng),
    ten_thousand_runs (constant_rng 0) = Return ((counts, averages), g')
    /\ length counts = Z.to_nat 10000
    /\ length averages = Z.to_nat 10000.
Proof.
  destruct (ten_thousand_runs_aligned
              (constant_rng 0)
              (fun i _ => simulation_constant_zero (i * draws_per_run)))
    as (counts & averages & g' & Hret & Hlc & Hla & _).
  exists counts, averages, g'.
  split; [exact Hret |]. split; [exact Hlc | exact Hla].
Defined.

(** C9 as stated fails: asked for 100 runs, the driver has no way to be told
    so; with draws of 0.0 it returns, and neither list has length 100. *)
Lemma ten_thousand_runs_not_numberOfRuns :
  let numberOfRuns := 100%nat in
  exists (counts : list Z) (averages : list Q) (g' : rng),
    ten_thousand_runs (constant_rng 0) = Return ((counts, averages), g')
    /\ length counts <> numberOfRuns
    /\ length averages <> numberOfRuns.
Proof.
  intros numberOfRuns.
  destruct (runs_loop_spec (Z.to_nat 10000) (constant_rng 0) [] []
              (fun i _ => simulation_constant_zero (i * draws_per_run)))
    as (counts & averages & Hloop & Hlc & Hla & _).
  exists counts, averages,
    (advance (Z.to_nat 10000 * draws_per_run) (constant_rng 0)).
  split; [exact Hloop |].
  unfold numberOfRuns. rewrite Hlc, Hla. split; lia.
Qed.

End BatchFacts.

(** * Further properties *)

(** ** The washer in any state *)

Section WasherMoreFacts.

Import Washer.

Lemma start_washing_idle (self : t) :
  is_busy self = false ->
  start_washing self
  = {| wash_time := wash_time self; time_until_done := wash_time self |}.
Proof. intros H. unfold start_washing. rewrite H. reflexivity. Qed.

Lemma one_second_fields (self : t) :
  wash_time (one_second self) = wash_time self
  /\ time_until_done (one_second self)
     = if time_until_done self =? 0 then 0 else time_until_done self - 1.
Proof.
  unfold one_second.
  destruct (Z.eqb_spec (time_until_done self) 0) as [E|E]; simpl; auto.
Qed.

Lemma seconds_below_zero (k : nat) (self : t) :
  time_until_done self < 0 ->
  time_until_done (seconds k self) = time_until_done self - Z.of_nat k.
Proof.
  intros Hneg. induction k as [|k IH].
  - simpl. lia.
  - change (seconds (S k) self) with (one_second (seconds k self)).
    destruct (one_second_fields (seconds k self)) as [_ ->].
    destruct (Z.eqb_spec (time_until_done (seconds k self)) 0); lia.
Qed.

(** X1. A washer whose wash time is 0 is never busy, even right after
    [start_washing]; a washer whose wash time is negative, once started,
    stays busy whatever the number of calls of [one_second]. *)
Theorem washer_nonpositive_wash_time (d : Z) (Hd : d <= 0) (k : nat) :
  is_busy (seconds k (start_washing (init d))) = negb (d =? 0).
Proof.
  change (start_washing (init d)) with (mk d d).
  destruct (Z.eqb_spec d 0) as [E|E]; simpl.
  - apply is_busy_false. rewrite seconds_countdown; simpl; lia.
  - apply is_busy_true. rewrite seconds_below_zero; simpl; lia.
Qed.

Lemma washer_nonpositive_wash_time_witness :
  is_busy (seconds 500 (start_washing (init (-3)))) = true
  /\ is_busy (seconds 0 (start_washing (init 0))) = false.
Proof.
  split.
  - apply (washer_nonpositive_wash_time (-3)). lia.
  - apply (washer_nonpositive_wash_time 0). lia.
Defined.

(** X2. From any state whose countdown [c] is not negative, [k] calls of
    [one_second] leave the countdown [max(0, c - k)]: it never goes below 0,
    the washer is busy afterwards exactly when [k < c], and [wash_time] is
    untouched. *)
Theorem washer_countdown (self : t) (k : nat)
    (Hc : 0 <= time_until_done self) :
  time_until_done (seconds k self)
  = Z.max 0 (time_until_done self - Z.of_nat k)
  /\ is_busy (seconds k self) = (Z.of_nat k <? time_until_done self)
  /\ wash_time (seconds k self) = wash_time self.
Proof.
  pose proof (seconds_countdown k self Hc) as Hk.
  split; [exact Hk |]. split; [| apply seconds_wash_time].
  destruct (Z.ltb_spec (Z.of_nat k) (time_until_done self)).
  - apply is_busy_true. lia.
  - apply is_busy_false. lia.
Qed.

Lemma washer_countdown_witness :
  time_until_done (seconds 4 (mk 150 10)) = Z.max 0 (10 - 4)
  /\ is_busy (seconds 4 (mk 150 10)) = true
  /\ wash_time (seconds 4 (mk 150 10)) = 150.
Proof. apply (washer_countdown (mk 150 10) 4). simpl. lia. Defined.

(** X3. [start_washing] is idempotent in every state: a second call right
    after the first changes nothing. *)
Theorem start_washing_idempotent (self : t) :
  start_washing (start_washing self) = start_washing self.
Proof.
  destruct (is_busy self) eqn:B.
  - unfold start_washing. rewrite B. simpl. rewrite B. reflexivity.
  - rewrite (start_washing_idle self B).
    destruct (is_busy (mk (wash_time self) (wash_time self))) eqn:B'.
    + unfold start_washing. rewrite B'. reflexivity.
    + rewrite (start_washing_idle _ B'). reflexivity.
Qed.

End WasherMoreFacts.

(** ** The tracker fed with a list *)

Section TrackerMoreFacts.

Import AverageTracker.

Lemma next_values_fields (values : list Z) :
  forall self : t,
    count (next_values self values) = count self + Z.of_nat (length values)
    /\ sum_ (next_values self values) = sum_ self + sum values.
Proof.
  induction values as [|v values IH]; intros self.
  - simpl. lia.
  - change (next_values self (v :: values))
      with (next_values (next_value self v) values).
    destruct (IH (next_value self v)) as [-> ->].
    simpl length. simpl sum. simpl count. simpl sum_. lia.
Qed.

(** X4. After a tracker has received the integers of a list one by one,
    [number_of_values] has grown by the length of the list and [sum_] by
    [sum] of the list; in particular a new tracker ends with
    [number_of_values] equal to [len(values)] and [sum_] equal to
    [sum(values)]. *)
Theorem tracker_of_list (self : t) (values : list Z) :
  number_of_values (next_values self values)
  = number_of_values self + Z.of_nat (length values)
  /\ sum_ (next_values self values) = sum_ self + sum values
  /\ number_of_values (next_values init values) = Z.of_nat (length values)
  /\ sum_ (next_values init values) = sum values.
Proof.
  destruct (next_values_fields values self) as [Hc Hs].
  destruct (next_values_fields values init) as [Hc0 Hs0].
  unfold number_of_values. simpl in Hc0, Hs0.
  split; [exact Hc |]. split; [exact Hs |].
  split; [exact Hc0 | exact Hs0].
Qed.

End TrackerMoreFacts.

(** ** Invariants of the loop of the simulation *)

Section LoopInvariants.

Variable prob : Q.
Variable wash_time : Z.
Variable g : rng.

Lemma arrivals_bound (n x : Z) :
  In x (arrivals prob g n) -> 0 <= x < n.
Proof.
  unfold arrivals, range. intros H.
  apply filter_In in H. destruct H as [H _].
  apply in_map_iff in H. destruct H as (i & <- & Hi).
  apply in_seq in Hi. lia.
Qed.

(** What one pass through the body does to the washer and to the tracker,
    in a state of the run: either the washer was idle and the arrival of
    rank [count] exists, and it is sent to the washer; or the washer was
    busy or every arrival so far has been sent, and only the clock of the
    washer moves. *)
Lemma loop_body_cases (n : nat) (st st' : loop_state) :
  loop_inv prob g n st ->
  loop_body (ArrivalGenerator.init prob) (Z.of_nat n) st = Return st' ->
  let served := Z.to_nat (AverageTracker.count (avg_wash_time st)) in
  loop_inv prob g (S n) st'
  /\ ((Washer.is_busy (ws st) = false
       /\ exists timestamp : Z,
           nth_error (arrivals prob g (Z.of_nat (S n))) served
           = Some timestamp
           /\ ws st' = Washer.one_second (Washer.start_washing (ws st))
           /\ avg_wash_time st'
              = AverageTracker.next_value (avg_wash_time st)
                                          (Z.of_nat n - timestamp))
      \/ ((Washer.is_busy (ws st) = true
           \/ (length (arrivals prob g (Z.of_nat (S n))) <= served)%nat)
          /\ ws st' = Washer.one_second (ws st)
          /\ avg_wash_time st' = avg_wash_time st)).
Proof.
  intros Hinv Hbody served.
  destruct (loop_body_inv prob g n st Hinv) as (st2 & Hbody2 & Hinv').
  rewrite Hbody in Hbody2. injection Hbody2 as <-.
  split; [exact Hinv' |].
  destruct (arrival_step_inv prob g n st Hinv) as (_ & Hws & Havg & Hq).
  fold served in Hq.
  unfold loop_body in Hbody.
  set (st1 := arrival_step (ArrivalGenerator.init prob) (Z.of_nat n) st) in *.
  destruct (dispatch_step_cases (Z.of_nat n) st1) as [[Hidle Hne] | Hskip].
  - left. rewrite Hws in Hidle. split; [exact Hidle |].
    rewrite dispatch_step_pops in Hbody by (rewrite ?Hws; assumption).
    injection Hbody as <-.
    destruct (rev (wash_deque st1)) as [|x rest] eqn:Hrev.
    { apply (f_equal (@rev Z)) in Hrev. rewrite rev_involutive in Hrev.
      contradiction. }
    destruct (rev_cons_last _ _ _ Hrev) as [Hlast _].
    symmetry in Hq.
    destruct (skipn_cons_nth _ _ _ _ Hq) as (Hnth & _ & _).
    exists x. split; [exact Hnth |].
    unfold tick_step. cbn [ws avg_wash_time].
    rewrite Hws, Havg, Hlast. split; reflexivity.
  - right. rewrite dispatch_step_skips in Hbody by assumption.
    injection Hbody as <-.
    unfold tick_step. cbn [ws avg_wash_time].
    rewrite Hws, Havg. split; [| split; reflexivity].
    destruct Hskip as [Hbusy | Hempty].
    + left. rewrite <- Hws. exact Hbusy.
    + right. rewrite Hempty in Hq. cbn [rev] in Hq.
      apply (f_equal (@length Z)) in Hq. rewrite length_skipn in Hq.
      cbn [length] in Hq. lia.
Qed.

(** Induction over the seconds of a run: a property of the initial state
    kept by every pass through the body holds after any number of
    seconds, together with [loop_inv]. *)
Lemma run_loop_invariant (P : nat -> loop_state -> Prop) :
  P 0%nat (initial_state wash_time g) ->
  (forall (n : nat) (st st' : loop_state),
      loop_inv prob g n st ->
      P n st ->
      loop_body (ArrivalGenerator.init prob) (Z.of_nat n) st = Return st' ->
      P (S n) st') ->
  forall n : nat,
  exists st : loop_state,
    run_loop prob wash_time g (Z.of_nat n) = Return st
    /\ loop_inv prob g n st
    /\ P n st.
Proof.
  intros H0 Hstep n. induction n as [|n (st & Hrun & Hinv & HP)].
  - destruct (run_loop_inv prob wash_time g 0) as (st & Hrun & Hinv).
    exists st. split; [exact Hrun |]. split; [exact Hinv |].
    injection Hrun as <-. exact H0.
  - destruct (loop_body_inv prob g n st Hinv) as (st' & Hbody & Hinv').
    exists st'. split; [| split; [exact Hinv' |]].
    + rewrite run_loop_succ, Hrun. exact Hbody.
    + exact (Hstep n st st' Hinv HP Hbody).
Qed.

(** The state in which [simulation] leaves its loop. *)
Lemma run_loop_of_time (simulation_time : Z) (st : loop_state) :
  run_loop prob wash_time g (Z.of_nat (Z.to_nat simulation_time)) = Return st ->
  run_loop prob wash_time g simulation_time = Return st.
Proof.
  unfold run_loop, range. rewrite Nat2Z.id. trivial.
Qed.

Lemma arrivals_of_time (simulation_time : Z) :
  arrivals prob g (Z.of_nat (Z.to_nat simulation_time))
  = arrivals prob g simulation_time.
Proof.
  unfold arrivals, range. rewrite Nat2Z.id. reflexivity.
Qed.

(** [simulation] in terms of the state its loop ends in. *)
Lemma simulation_of_state (simulation_time : Z) (st : loop_state) :
  run_loop prob wash_time g simulation_time = Return st ->
  simulation prob simulation_time wash_time g
  = if AverageTracker.count (avg_wash_time st) =? 0
    then Raise ZeroDivisionError
    else Return ((AverageTracker.count (avg_wash_time st),
                  (inject_Z (AverageTracker.sum_ (avg_wash_time st))
                   / inject_Z (AverageTracker.count (avg_wash_time st)))%Q),
                 gen st).
Proof.
  intros Hrun. unfold simulation. rewrite Hrun.
  unfold AverageTracker.average.
  destruct (_ =? 0); reflexivity.
Qed.

End LoopInvariants.

(** ** What a run returns *)

Section RunFacts.

Variable prob : Q.
Variable wash_time : Z.
Variable g : rng.

(** While no car has been sent to the washer, the washer is idle and nobody
    has arrived. *)
Lemma nothing_served_yet (n : nat) :
  exists st : loop_state,
    run_loop prob wash_time g (Z.of_nat n) = Return st
    /\ loop_inv prob g n st
    /\ (AverageTracker.count (avg_wash_time st) = 0 ->
        Washer.time_until_done (ws st) = 0
        /\ arrivals prob g (Z.of_nat n) = []).
Proof.
  apply (run_loop_invariant prob wash_time g
           (fun n st =>
              AverageTracker.count (avg_wash_time st) = 0 ->
              Washer.time_until_done (ws st) = 0
              /\ arrivals prob g (Z.of_nat n) = [])).
  - intros _. split; reflexivity.
  - clear n. intros n st st' Hinv HP Hbody Hzero.
    destruct (loop_body_cases prob g n st st' Hinv Hbody)
      as (_ & [(_ & ts & _ & _ & Havg) | (Hskip & Hws & Havg)]).
    + destruct Hinv as (_ & Hcount & _).
      rewrite Havg in Hzero. simpl in Hzero. lia.
    + rewrite Havg in Hzero. destruct (HP Hzero) as [Htud Harr].
      rewrite Hzero in Hskip. cbn [Z.to_nat] in Hskip.
      destruct Hskip as [Hbusy | Hlen].
      * apply is_busy_true in Hbusy. contradiction.
      * split.
        -- rewrite Hws.
           destruct (one_second_fields (ws st)) as [_ ->].
           rewrite Htud. reflexivity.
        -- destruct (arrivals prob g (Z.of_nat (S n))); [reflexivity |].
           simpl in Hlen. lia.
Qed.

(** X5. [simulation] raises [ZeroDivisionError] when no car arrives during
    the run, and only then: as soon as one car arrives it returns, with a
    count of at least 1, having drawn one value per second. *)
Theorem simulation_raises_iff_no_arrival (simulation_time : Z) :
  (arrivals prob g simulation_time = [] ->
   simulation prob simulation_time wash_time g = Raise ZeroDivisionError)
  /\ (arrivals prob g simulation_time <> [] ->
      exists (count : Z) (avg_time : Q),
        simulation prob simulation_time wash_time g
        = Return ((count, avg_time), advance (Z.to_nat simulation_time) g)
        /\ 1 <= count).
Proof.
  destruct (nothing_served_yet (Z.to_nat simulation_time))
    as (st & Hrun & Hinv & Hzero).
  apply run_loop_of_time in Hrun.
  rewrite arrivals_of_time in Hzero.
  rewrite (simulation_of_state prob wash_time g simulation_time st Hrun).
  destruct Hinv as (Hgen & Hcount & Hlen & _).
  rewrite arrivals_of_time in Hlen.
  split.
  - intros Hnone. rewrite Hnone in Hlen. simpl in Hlen.
    replace (AverageTracker.count (avg_wash_time st)) with 0 by lia.
    reflexivity.
  - intros Hsome.
    destruct (Z.eqb_spec (AverageTracker.count (avg_wash_time st)) 0)
      as [E|E].
    + destruct (Hzero E) as [_ Hnone]. contradiction.
    + eexists. eexists. rewrite Hgen. split; [reflexivity | lia].
Qed.

(** X6. No car is lost and none is invented: after the loop, the cars sent
    to the washer and the cars still in the queue are together exactly the
    cars that arrived. *)
Theorem cars_conserved (simulation_time : Z) :
  exists st : loop_state,
    run_loop prob wash_time g simulation_time = Return st
    /\ 0 <= AverageTracker.count (avg_wash_time st)
    /\ AverageTracker.count (avg_wash_time st) + deque.len (wash_deque st)
       = Z.of_nat (length (arrivals prob g simulation_time)).
Proof.
  destruct (run_loop_inv prob wash_time g (Z.to_nat simulation_time))
    as (st & Hrun & (_ & Hcount & Hlen & Hq)).
  apply run_loop_of_time in Hrun.
  rewrite arrivals_of_time in Hlen, Hq.
  exists st. split; [exact Hrun |]. split; [lia |].
  apply (f_equal (@length Z)) in Hq.
  rewrite length_rev, length_skipn in Hq.
  unfold deque.len. lia.
Qed.

(** The washer of a run keeps the wash time it was built with; when that is
    at least 1, the countdown stays between 0 and [wash_time - 1] at the end
    of each second, and [count * wash_time] seconds of washing fit in the
    seconds elapsed plus what is left of the current wash. *)
Lemma washer_pace (Hw : 1 <= wash_time) (n : nat) :
  exists st : loop_state,
    run_loop prob wash_time g (Z.of_nat n) = Return st
    /\ loop_inv prob g n st
    /\ (Washer.wash_time (ws st) = wash_time
        /\ 0 <= Washer.time_until_done (ws st) <= wash_time - 1
        /\ AverageTracker.count (avg_wash_time st) * wash_time
           - Washer.time_until_done (ws st) <= Z.of_nat n).
Proof.
  apply (run_loop_invariant prob wash_time g
           (fun n st =>
              Washer.wash_time (ws st) = wash_time
              /\ 0 <= Washer.time_until_done (ws st) <= wash_time - 1
              /\ AverageTracker.count (avg_wash_time st) * wash_time
                 - Washer.time_until_done (ws st) <= Z.of_nat n)).
  - simpl. lia.
  - clear n. intros n st st' Hinv (Hwt & Htud & Hpace) Hbody.
    destruct (loop_body_cases prob g n st st' Hinv Hbody)
      as (_ & [(Hidle & ts & _ & Hws & Havg) | (_ & Hws & Havg)]).
    + rewrite (start_washing_idle _ Hidle) in Hws.
      apply is_busy_false in Hidle.
      rewrite Hws, Havg. unfold Washer.one_second. simpl.
      rewrite Hwt.
      destruct (Z.eqb_spec wash_time 0); simpl; lia.
    + rewrite Hws, Havg.
      destruct (one_second_fields (ws st)) as [-> ->].
      destruct (Z.eqb_spec (Washer.time_until_done (ws st)) 0); lia.
Qed.

(** X7. With a wash time of at least 1 the washer takes at most one car per
    [wash_time] seconds: the count [simulation] returns is at most
    [simulation_time / wash_time] rounded up. *)
Theorem served_at_most_one_per_wash_time (simulation_time : Z)
    (count : Z) (avg_time : Q) (g' : rng)
    (Hw : 1 <= wash_time)
    (Hrun : simulation prob simulation_time wash_time g
            = Return ((count, avg_time), g')) :
  count <= (simulation_time + wash_time - 1) / wash_time.
Proof.
  destruct (washer_pace Hw (Z.to_nat simulation_time))
    as (st & Hloop & (_ & Hcount & _) & (_ & Htud & Hpace)).
  apply run_loop_of_time in Hloop.
  rewrite (simulation_of_state prob wash_time g simulation_time st Hloop)
    in Hrun.
  destruct (Z.eqb_spec (AverageTracker.count (avg_wash_time st)) 0) as [E|E];
    [discriminate |].
  injection Hrun as <- _ _.
  apply Z.div_le_lower_bound; [lia |].
  assert (Htime : 0 <= simulation_time).
  { destruct (Z.le_gt_cases 0 simulation_time) as [L|L]; [exact L |].
    replace (Z.to_nat simulation_time) with 0%nat in Hpace, Hcount by lia.
    lia. }
  rewrite Z2Nat.id in Hpace by exact Htime.
  rewrite Z.mul_comm. lia.
Qed.

End RunFacts.

Lemma simulation_raises_iff_no_arrival_witness :
  simulation (1 # 4) 3 5 (constant_rng (1 # 2)) = Raise ZeroDivisionError
  /\ exists (count : Z) (avg_time : Q),
      simulation (1 # 2) 3 5 (constant_rng (1 # 4))
      = Return ((count, avg_time), advance 3 (constant_rng (1 # 4)))
      /\ 1 <= count.
Proof.
  split.
  - apply (proj1 (simulation_raises_iff_no_arrival
                    (1 # 4) 5 (constant_rng (1 # 2)) 3)).
    reflexivity.
  - apply (proj2 (simulation_raises_iff_no_arrival
                    (1 # 2) 5 (constant_rng (1 # 4)) 3)).
    vm_compute. discriminate.
Defined.

Lemma served_at_most_one_per_wash_time_witness :
  simulation 1 100 10 (constant_rng 0)
  = Return ((10, 405 # 10), advance 100 (constant_rng 0))
  /\ 10 <= (100 + 10 - 1) / 10.
Proof.
  assert (Hrun : simulation 1 100 10 (constant_rng 0)
                 = Return ((10, 405 # 10), advance 100 (constant_rng 0)))
    by (vm_compute; reflexivity).
  split; [exact Hrun |].
  apply (served_at_most_one_per_wash_time
           1 10 (constant_rng 0) 100 10 (405 # 10)
           (advance 100 (constant_rng 0))); [lia | exact Hrun].
Defined.

(** ** Waiting times *)

Section WaitFacts.

Variable prob : Q.
Variable wash_time : Z.
Variable g : rng.

(** Every waiting time sent to the tracker lies between 0 and the current
    second, so the sum lies between 0 and [count] times the last second. *)
Lemma waits_bounded (n : nat) :
  exists st : loop_state,
    run_loop prob wash_time g (Z.of_nat n) = Return st
    /\ loop_inv prob g n st
    /\ 0 <= AverageTracker.sum_ (avg_wash_time st)
       <= AverageTracker.count (avg_wash_time st) * (Z.of_nat n - 1).
Proof.
  apply (run_loop_invariant prob wash_time g
           (fun n st =>
              0 <= AverageTracker.sum_ (avg_wash_time st)
              <= AverageTracker.count (avg_wash_time st)
                 * (Z.of_nat n - 1))).
  - simpl. lia.
  - clear n. intros n st st' Hinv Hsum Hbody.
    destruct Hinv as (Hgen & Hcount & Hlen & Hq).
    destruct (loop_body_cases prob g n st st'
                (conj Hgen (conj Hcount (conj Hlen Hq))) Hbody)
      as (_ & [(_ & ts & Hnth & _ & Havg) | (_ & _ & Havg)]).
    + apply nth_error_In, arrivals_bound in Hnth.
      rewrite Havg.
      cbn [AverageTracker.next_value AverageTracker.count AverageTracker.sum_].
      rewrite Nat2Z.inj_succ in *. nia.
    + rewrite Havg. rewrite Nat2Z.inj_succ. nia.
Qed.

Lemma Qdiv_bounds (s c m : Z) :
  0 < c -> 0 <= s <= c * m ->
  (0 <= inject_Z s / inject_Z c)%Q /\ (inject_Z s / inject_Z c <= inject_Z m)%Q.
Proof.
  intros Hc [H0 Hm].
  assert (Hcq : (0 < inject_Z c)%Q).
  { change (inject_Z 0 < inject_Z c)%Q. rewrite <- Zlt_Qlt. exact Hc. }
  split.
  - apply Qle_shift_div_l; [exact Hcq |].
    rewrite Qmult_0_l. change (inject_Z 0 <= inject_Z s)%Q.
    rewrite <- Zle_Qle. exact H0.
  - apply Qle_shift_div_r; [exact Hcq |].
    rewrite <- inject_Z_mult, <- Zle_Qle. lia.
Qed.

(** X8. The average [simulation] returns is a waiting time that can occur:
    it is at least 0 and at most [simulation_time - 1]. *)
Theorem average_wait_bounds (simulation_time : Z)
    (count : Z) (avg_time : Q) (g' : rng)
    (Hrun : simulation prob simulation_time wash_time g
            = Return ((count, avg_time), g')) :
  (0 <= avg_time)%Q /\ (avg_time <= inject_Z (simulation_time - 1))%Q.
Proof.
  destruct (waits_bounded (Z.to_nat simulation_time))
    as (st & Hloop & (_ & Hcount & _) & Hsum).
  apply run_loop_of_time in Hloop.
  rewrite (simulation_of_state prob wash_time g simulation_time st Hloop)
    in Hrun.
  destruct (Z.eqb_spec (AverageTracker.count (avg_wash_time st)) 0) as [E|E];
    [discriminate |].
  injection Hrun as _ <- _.
  apply Qdiv_bounds; [lia |].
  assert (Htime : 0 <= simulation_time) by lia.
  rewrite Z2Nat.id in Hsum by exact Htime. exact Hsum.
Qed.

End WaitFacts.

Lemma average_wait_bounds_witness :
  simulation 1 100 10 (constant_rng 0)
  = Return ((10, 405 # 10), advance 100 (constant_rng 0))
  /\ (0 <= 405 # 10)%Q /\ (405 # 10 <= inject_Z (100 - 1))%Q.
Proof.
  assert (Hrun : simulation 1 100 10 (constant_rng 0)
                 = Return ((10, 405 # 10), advance 100 (constant_rng 0)))
    by (vm_compute; reflexivity).
  split; [exact Hrun |].
  exact (average_wait_bounds 1 10 (constant_rng 0) 100 10 (405 # 10)
                             (advance 100 (constant_rng 0)) Hrun).
Defined.

(** ** The queue *)

Section QueueFacts.

Variable prob : Q.
Variable wash_time : Z.
Variable g : rng.

Lemma seconds_increasing (a n : nat) :
  StronglySorted Z.lt (map Z.of_nat (seq a n)).
Proof.
  revert a. induction n as [|n IH]; intros a; simpl.
  - constructor.
  - constructor; [apply IH |].
    apply Forall_forall. intros x Hx.
    apply in_map_iff in Hx. destruct Hx as (i & <- & Hi).
    apply in_seq in Hi. lia.
Qed.

Lemma filter_increasing (f : Z -> bool) (l : list Z) :
  StronglySorted Z.lt l -> StronglySorted Z.lt (filter f l).
Proof.
  induction 1 as [|x l Hl IH Hx]; simpl.
  - constructor.
  - destruct (f x); [| exact IH].
    constructor; [exact IH |].
    apply Forall_forall. intros y Hy.
    apply filter_In in Hy. destruct Hy as [Hy _].
    rewrite Forall_forall in Hx. exact (Hx y Hy).
Qed.

Lemma skipn_increasing (c : nat) :
  forall l : list Z,
    StronglySorted Z.lt l -> StronglySorted Z.lt (skipn c l).
Proof.
  induction c as [|c IH]; intros l Hl; [exact Hl |].
  destruct l as [|x l]; [constructor |].
  simpl. apply IH. inversion Hl; assumption.
Qed.

Lemma skipn_In (c : nat) (x : Z) :
  forall l : list Z, In x (skipn c l) -> In x l.
Proof.
  induction c as [|c IH]; intros l H; [exact H |].
  destruct l as [|y l]; [exact H |].
  right. apply IH. exact H.
Qed.

(** X9. After the loop, the queue read from its right end to its left end
    holds strictly increasing timestamps, all of them seconds of the run:
    the car at the right end is the one that has waited longest. *)
Theorem queue_is_ordered (simulation_time : Z) :
  exists st : loop_state,
    run_loop prob wash_time g simulation_time = Return st
    /\ StronglySorted Z.lt (rev (wash_deque st))
    /\ forall timestamp : Z,
        In timestamp (wash_deque st) -> 0 <= timestamp < simulation_time.
Proof.
  destruct (run_loop_inv prob wash_time g (Z.to_nat simulation_time))
    as (st & Hrun & (_ & _ & _ & Hq)).
  apply run_loop_of_time in Hrun.
  rewrite arrivals_of_time in Hq.
  exists st. split; [exact Hrun |]. split.
  - rewrite Hq. apply skipn_increasing.
    unfold arrivals. apply filter_increasing.
    unfold range. apply seconds_increasing.
  - intros ts Hin. apply in_rev in Hin. rewrite Hq in Hin.
    apply skipn_In in Hin. exact (arrivals_bound prob g _ _ Hin).
Qed.

End QueueFacts.

(** ** Wash times of 0 and below *)

Section EdgeWashTimes.

Variable prob : Q.
Variable g : rng.

Lemma zero_quotient (c : Z) : (inject_Z 0 / inject_Z c == 0)%Q.
Proof. unfold Qdiv. apply Qmult_0_l. Qed.

(** The arrival of rank [length (arrivals n)], if there is one among the
    arrivals of the first [n + 1] seconds, is second [n] itself. *)
Lemma newest_arrival (n : nat) (timestamp : Z) :
  nth_error (arrivals prob g (Z.of_nat (S n)))
            (length (arrivals prob g (Z.of_nat n))) = Some timestamp ->
  timestamp = Z.of_nat n
  /\ length (arrivals prob g (Z.of_nat (S n)))
     = S (length (arrivals prob g (Z.of_nat n))).
Proof.
  rewrite arrivals_succ, length_app.
  rewrite nth_error_app2 by lia. rewrite Nat.sub_diag.
  destruct (Qle_bool _ _); simpl; [| discriminate].
  intros [= <-]. split; [reflexivity | lia].
Qed.

(** With a wash time of 0 the washer is idle at every second: each car is
    sent to it in the second it arrives. *)
Lemma zero_wash_time_run (n : nat) :
  exists st : loop_state,
    run_loop prob 0 g (Z.of_nat n) = Return st
    /\ loop_inv prob g n st
    /\ (Washer.wash_time (ws st) = 0
        /\ Washer.time_until_done (ws st) = 0
        /\ AverageTracker.sum_ (avg_wash_time st) = 0
        /\ AverageTracker.count (avg_wash_time st)
           = Z.of_nat (length (arrivals prob g (Z.of_nat n)))).
Proof.
  apply (run_loop_invariant prob 0 g
           (fun n st =>
              Washer.wash_time (ws st) = 0
              /\ Washer.time_until_done (ws st) = 0
              /\ AverageTracker.sum_ (avg_wash_time st) = 0
              /\ AverageTracker.count (avg_wash_time st)
                 = Z.of_nat (length (arrivals prob g (Z.of_nat n))))).
  - repeat split.
  - clear n. intros n st st' Hinv (Hwt & Htud & Hsum & Hcount) Hbody.
    pose proof (arrivals_length_mono prob g n) as Hmono.
    destruct (loop_body_cases prob g n st st' Hinv Hbody)
      as (_ & [(Hidle & ts & Hnth & Hws & Havg) | (Hskip & Hws & Havg)]).
    + rewrite Hcount, Nat2Z.id in Hnth.
      destruct (newest_arrival n ts Hnth) as [-> Hlen].
      rewrite (start_washing_idle _ Hidle) in Hws.
      rewrite Hws, Havg, Hwt, Hlen.
      cbn [AverageTracker.next_value AverageTracker.count AverageTracker.sum_].
      repeat split; lia.
    + rewrite Hws, Havg.
      destruct (one_second_fields (ws st)) as [-> ->].
      rewrite Htud. repeat split; try assumption.
      destruct Hskip as [Hbusy | Hlen].
      * apply is_busy_true in Hbusy. contradiction.
      * rewrite Hcount in *. rewrite Nat2Z.id in Hlen. lia.
Qed.

(** X10. With a wash time of 0 nobody waits: as soon as one car arrives
    during the run, [simulation] returns the number of arrivals as its
    count, and an average of 0. *)
Theorem zero_wash_time_serves_everyone (simulation_time : Z)
    (Harrival : arrivals prob g simulation_time <> []) :
  exists avg_time : Q,
    simulation prob simulation_time 0 g
    = Return ((Z.of_nat (length (arrivals prob g simulation_time)), avg_time),
              advance (Z.to_nat simulation_time) g)
    /\ (avg_time == 0)%Q.
Proof.
  destruct (zero_wash_time_run (Z.to_nat simulation_time))
    as (st & Hloop & (Hgen & _) & (_ & _ & Hsum & Hcount)).
  apply run_loop_of_time in Hloop.
  rewrite arrivals_of_time in Hcount.
  rewrite (simulation_of_state prob 0 g simulation_time st Hloop).
  rewrite Hcount, Hsum, Hgen.
  destruct (arrivals prob g simulation_time) as [|a l]; [contradiction |].
  destruct (Z.eqb_spec (Z.of_nat (length (a :: l))) 0) as [E|E].
  - simpl length in E. lia.
  - eexists. split; [reflexivity | apply zero_quotient].
Qed.

(** With a negative wash time the first car that arrives is sent to the
    washer at once, and the washer is busy ever after. *)
Lemma negative_wash_time_run (wash_time : Z) (Hw : wash_time < 0) (n : nat) :
  exists st : loop_state,
    run_loop prob wash_time g (Z.of_nat n) = Return st
    /\ loop_inv prob g n st
    /\ (Washer.wash_time (ws st) = wash_time
        /\ AverageTracker.sum_ (avg_wash_time st) = 0
        /\ ((AverageTracker.count (avg_wash_time st) = 0
             /\ Washer.time_until_done (ws st) = 0
             /\ arrivals prob g (Z.of_nat n) = [])
            \/ (AverageTracker.count (avg_wash_time st) = 1
                /\ Washer.time_until_done (ws st) < 0))).
Proof.
  apply (run_loop_invariant prob wash_time g
           (fun n st =>
              Washer.wash_time (ws st) = wash_time
              /\ AverageTracker.sum_ (avg_wash_time st) = 0
              /\ ((AverageTracker.count (avg_wash_time st) = 0
                   /\ Washer.time_until_done (ws st) = 0
                   /\ arrivals prob g (Z.of_nat n) = [])
                  \/ (AverageTracker.count (avg_wash_time st) = 1
                      /\ Washer.time_until_done (ws st) < 0)))).
  - split; [reflexivity |]. split; [reflexivity |]. left. repeat split.
  - clear n. intros n st st' Hinv (Hwt & Hsum & Hstate) Hbody.
    destruct (loop_body_cases prob g n st st' Hinv Hbody)
      as (_ & [(Hidle & ts & Hnth & Hws & Havg) | (Hskip & Hws & Havg)]).
    + destruct Hstate as [(Hcount & Htud & Hnone) | (_ & Htud)].
      * rewrite Hcount in Hnth. cbn [Z.to_nat] in Hnth.
        assert (Hlen : length (arrivals prob g (Z.of_nat n)) = 0%nat)
          by (rewrite Hnone; reflexivity).
        rewrite <- Hlen in Hnth.
        destruct (newest_arrival n ts Hnth) as [-> _].
        rewrite (start_washing_idle _ Hidle) in Hws.
        rewrite Hws, Havg, Hwt.
        unfold Washer.one_second. cbn [Washer.time_until_done Washer.wash_time].
        destruct (Z.eqb_spec wash_time 0) as [E|E]; [lia |].
        cbn [negb Washer.time_until_done Washer.wash_time
             AverageTracker.next_value AverageTracker.count
             AverageTracker.sum_].
        rewrite Hcount, Hsum.
        split; [reflexivity |]. split; [lia |]. right. lia.
      * apply is_busy_false in Hidle. lia.
    + rewrite Hws, Havg.
      destruct (one_second_fields (ws st)) as [-> ->].
      split; [exact Hwt |]. split; [exact Hsum |].
      destruct Hstate as [(Hcount & Htud & Hnone) | (Hcount & Htud)].
      * left. rewrite Htud. split; [exact Hcount |]. split; [reflexivity |].
        rewrite Hcount in Hskip. cbn [Z.to_nat] in Hskip.
        destruct Hskip as [Hbusy | Hlen].
        -- apply is_busy_true in Hbusy. contradiction.
        -- destruct (arrivals prob g (Z.of_nat (S n))); [reflexivity |].
           simpl in Hlen. lia.
      * right. split; [exact Hcount |].
        destruct (Z.eqb_spec (Washer.time_until_done (ws st)) 0); lia.
Qed.

(** X11. With a negative wash time the washer never becomes idle again once
    started: as soon as one car arrives during the run, [simulation]
    returns a count of exactly 1 and an average of 0, however many cars
    arrive. *)
Theorem negative_wash_time_serves_one (wash_time simulation_time : Z)
    (Hw : wash_time < 0)
    (Harrival : arrivals prob g simulation_time <> []) :
  exists avg_time : Q,
    simulation prob simulation_time wash_time g
    = Return ((1, avg_time), advance (Z.to_nat simulation_time) g)
    /\ (avg_time == 0)%Q.
Proof.
  destruct (negative_wash_time_run wash_time Hw (Z.to_nat simulation_time))
    as (st & Hloop & (Hgen & _) & (_ & Hsum & Hstate)).
  apply run_loop_of_time in Hloop.
  rewrite arrivals_of_time in Hstate.
  rewrite (simulation_of_state prob wash_time g simulation_time st Hloop).
  destruct Hstate as [(_ & _ & Hnone) | (Hcount & _)]; [contradiction |].
  rewrite Hcount, Hsum, Hgen.
  eexists. split; [reflexivity | apply zero_quotient].
Qed.

End EdgeWashTimes.

Lemma zero_wash_time_serves_everyone_witness :
  exists avg_time : Q,
    simulation 1 5 0 (constant_rng 0)
    = Return ((Z.of_nat (length (arrivals 1 (constant_rng 0) 5)), avg_time),
              advance (Z.to_nat 5) (constant_rng 0))
    /\ (avg_time == 0)%Q.
Proof.
  apply (zero_wash_time_serves_everyone 1 (constant_rng 0) 5).
  vm_compute. discriminate.
Defined.

Lemma negative_wash_time_serves_one_witness :
  exists avg_time : Q,
    simulation 1 5 (-2) (constant_rng 0)
    = Return ((1, avg_time), advance (Z.to_nat 5) (constant_rng 0))
    /\ (avg_time == 0)%Q.
Proof.
  apply (negative_wash_time_serves_one 1 (constant_rng 0) (-2) 5).
  - lia.
  - vm_compute. discriminate.
Defined.

(** ** A car every second *)

Section Saturation.

Variable prob : Q.
Variable wash_time : Z.
Variable g : rng.

Hypothesis Hprob : (1 <= prob)%Q.
Hypothesis Hdraws : unit_draws g.
Hypothesis Hwash : 1 <= wash_time.

Lemma filter_all (f : Z -> bool) (l : list Z) :
  (forall x, In x l -> f x = true) -> filter f l = l.
Proof.
  induction l as [|x l IH]; intros H; simpl; [reflexivity |].
  rewrite (H x (or_introl eq_refl)). f_equal.
  apply IH. intros y Hy. apply H. right. exact Hy.
Qed.

(** With a probability of at least 1 a car arrives at every second. *)
Lemma arrivals_every_second (n : Z) : arrivals prob g n = range n.
Proof.
  unfold arrivals. apply filter_all. intros x _.
  apply Qle_bool_iff.
  apply Qle_trans with (y := 1%Q); [| exact Hprob].
  apply Qlt_le_weak, Hdraws.
Qed.

Lemma range_nth (m : Z) (c : nat) (x : Z) :
  nth_error (range m) c = Some x -> x = Z.of_nat c.
Proof.
  unfold range. intros H.
  assert (Hc : (c < Z.to_nat m)%nat).
  { assert (Hsome : nth_error (map Z.of_nat (seq 0 (Z.to_nat m))) c <> None)
      by (rewrite H; discriminate).
    apply nth_error_Some in Hsome.
    rewrite length_map, length_seq in Hsome. exact Hsome. }
  apply (nth_error_nth _ _ (Z.of_nat 0)) in H.
  rewrite map_nth, seq_nth in H by exact Hc. subst x. reflexivity.
Qed.

(** When a car arrives every second the washer never waits for a car:
    it starts a wash every [wash_time] seconds, car [j] (counting from 0)
    at second [j * wash_time], after a wait of [j * (wash_time - 1)]. *)
Lemma saturated_run (n : nat) :
  exists st : loop_state,
    run_loop prob wash_time g (Z.of_nat n) = Return st
    /\ loop_inv prob g n st
    /\ (Washer.wash_time (ws st) = wash_time
        /\ 0 <= Washer.time_until_done (ws st) <= wash_time - 1
        /\ AverageTracker.count (avg_wash_time st) * wash_time
           - Washer.time_until_done (ws st) = Z.of_nat n
        /\ 2 * AverageTracker.sum_ (avg_wash_time st)
           = (wash_time - 1) * AverageTracker.count (avg_wash_time st)
             * (AverageTracker.count (avg_wash_time st) - 1)).
Proof.
  apply (run_loop_invariant prob wash_time g
           (fun n st =>
              Washer.wash_time (ws st) = wash_time
              /\ 0 <= Washer.time_until_done (ws st) <= wash_time - 1
              /\ AverageTracker.count (avg_wash_time st) * wash_time
                 - Washer.time_until_done (ws st) = Z.of_nat n
              /\ 2 * AverageTracker.sum_ (avg_wash_time st)
                 = (wash_time - 1) * AverageTracker.count (avg_wash_time st)
                   * (AverageTracker.count (avg_wash_time st) - 1))).
  - simpl. lia.
  - clear n. intros n st st' Hinv (Hwt & Htud & Hpace & Hsum) Hbody.
    destruct Hinv as (Hgen & Hcount & Hlen & Hq).
    destruct (loop_body_cases prob g n st st'
                (conj Hgen (conj Hcount (conj Hlen Hq))) Hbody)
      as (_ & [(Hidle & ts & Hnth & Hws & Havg) | (Hskip & Hws & Havg)]).
    + rewrite arrivals_every_second in Hnth.
      apply range_nth in Hnth. rewrite Z2Nat.id in Hnth by lia. subst ts.
      rewrite (start_washing_idle _ Hidle) in Hws.
      apply is_busy_false in Hidle.
      rewrite Hws, Havg, Hwt. unfold Washer.one_second.
      cbn [Washer.time_until_done Washer.wash_time].
      destruct (Z.eqb_spec wash_time 0) as [E|E]; [lia |].
      cbn [negb Washer.time_until_done Washer.wash_time
           AverageTracker.next_value AverageTracker.count
           AverageTracker.sum_].
      rewrite Nat2Z.inj_succ.
      split; [reflexivity |]. split; [lia |]. split; [lia |]. nia.
    + assert (Hbusy : Washer.time_until_done (ws st) <> 0).
      { destruct Hskip as [Hbusy | Hfew].
        - apply is_busy_true. exact Hbusy.
        - rewrite arrivals_every_second, range_length in Hfew. lia. }
      rewrite Hws, Havg.
      destruct (one_second_fields (ws st)) as [-> ->].
      destruct (Z.eqb_spec (Washer.time_until_done (ws st)) 0) as [E|E];
        [contradiction |].
      rewrite Nat2Z.inj_succ.
      split; [exact Hwt |]. split; [lia |]. split; [lia | exact Hsum].
Qed.

Lemma half_quotient (s c x : Z) :
  0 < c -> 2 * s = x * c ->
  (inject_Z s / inject_Z c * 2 == inject_Z x)%Q.
Proof.
  intros Hc H.
  assert (Hnz : ~ (inject_Z c == 0)%Q).
  { intros E. unfold Qeq in E. simpl in E. lia. }
  apply (Qmult_inj_r _ _ (inject_Z c) Hnz).
  transitivity (inject_Z s * 2)%Q; [field; exact Hnz |].
  change 2%Q with (inject_Z 2).
  rewrite <- !inject_Z_mult. rewrite <- H, Z.mul_comm. reflexivity.
Qed.

(** X12. When a car arrives every second (probability at least 1) and the
    wash time is at least 1, a run of [simulation_time >= 1] seconds washes
    exactly [simulation_time / wash_time] cars, rounded up, and the average
    wait it returns is [(wash_time - 1) * (count - 1) / 2]. *)
Theorem saturated_simulation (simulation_time : Z)
    (Htime : 1 <= simulation_time) :
  let count := (simulation_time + wash_time - 1) / wash_time in
  exists avg_time : Q,
    simulation prob simulation_time wash_time g
    = Return ((count, avg_time), advance (Z.to_nat simulation_time) g)
    /\ (avg_time * 2 == inject_Z ((wash_time - 1) * (count - 1)))%Q.
Proof.
  intros count.
  destruct (saturated_run (Z.to_nat simulation_time))
    as (st & Hloop & (Hgen & Hcount & _) & (_ & Htud & Hpace & Hsum)).
  apply run_loop_of_time in Hloop.
  rewrite Z2Nat.id in Hpace, Hcount by lia.
  rewrite (simulation_of_state prob wash_time g simulation_time st Hloop).
  assert (Hc : AverageTracker.count (avg_wash_time st) = count).
  { unfold count.
    apply (Z.div_unique _ _ _ (wash_time - 1
                               - Washer.time_until_done (ws st))); lia. }
  rewrite Hc in *.
  assert (Hpos : 1 <= count) by nia.
  destruct (Z.eqb_spec count 0) as [E|E]; [lia |].
  eexists. rewrite Hgen. split; [reflexivity |].
  apply half_quotient; [lia |]. rewrite Hsum. ring.
Qed.

End Saturation.

Lemma saturated_simulation_witness :
  exists avg_time : Q,
    simulation 1 6000 150 (constant_rng 0)
    = Return (((6000 + 150 - 1) / 150, avg_time),
              advance (Z.to_nat 6000) (constant_rng 0))
    /\ (avg_time * 2
        == inject_Z ((150 - 1) * ((6000 + 150 - 1) / 150 - 1)))%Q.
Proof.
  apply (saturated_simulation 1 150 (constant_rng 0)).
  - apply Qle_refl.
  - apply constant_rng_unit; [apply Qle_refl | reflexivity].
  - lia.
  - lia.
Defined.

(** ** Extreme probabilities *)

Section QueryEdges.

Import ArrivalGenerator.

(** X13. For draws of [0, 1): with a probability of at least 1 [query]
    always returns [True], with a negative probability it always ends
    without returning one ([None]); in both cases, as in every other, the
    call consumes exactly one draw. *)
Theorem query_extreme_probabilities (self : t) (g : rng)
    (Hdraws : unit_draws g) :
  ((1 <= probability self)%Q -> fst (query self g) = PyTrue)
  /\ ((probability self < 0)%Q -> fst (query self g) = PyNone)
  /\ snd (query self g) = advance 1 g.
Proof.
  rewrite query_spec. cbn [fst snd].
  destruct (Hdraws (pos g)) as [H0 H1].
  split; [| split; [| reflexivity]].
  - intros Hp.
    assert (Hle : Qle_bool (stream g (pos g)) (probability self) = true).
    { apply Qle_bool_iff. apply Qle_trans with (y := 1%Q); [| exact Hp].
      apply Qlt_le_weak. exact H1. }
    rewrite Hle. reflexivity.
  - intros Hp.
    destruct (Qle_bool (stream g (pos g)) (probability self)) eqn:Hle;
      [| reflexivity].
    apply Qle_bool_iff in Hle.
    exfalso. apply (Qlt_irrefl 0).
    apply Qle_lt_trans with (y := probability self); [| exact Hp].
    apply Qle_trans with (y := stream g (pos g)); assumption.
Qed.

Lemma query_extreme_probabilities_witness :
  fst (query (init 2) (constant_rng (3 # 4))) = PyTrue
  /\ fst (query (init (-1 # 2)) (constant_rng 0)) = PyNone.
Proof.
  split.
  - apply (proj1 (query_extreme_probabilities
                    (init 2) (constant_rng (3 # 4))
                    (constant_rng_unit (3 # 4) ltac:(discriminate) eq_refl))).
    discriminate.
  - apply (proj1 (proj2 (query_extreme_probabilities
                           (init (-1 # 2)) (constant_rng 0)
                           (constant_rng_unit 0 (Qle_refl 0) eq_refl)))).
    reflexivity.
Defined.

End QueryEdges.

(** ** What ten thousand runs return *)

Section BatchMoreFacts.

Lemma simulation_only_ZeroDivisionError (prob : Q)
    (simulation_time wash_time : Z) (g : rng) (e : exn) :
  simulation prob simulation_time wash_time g = Raise e ->
  e = ZeroDivisionError.
Proof.
  destruct (run_loop_inv prob wash_time g (Z.to_nat simulation_time))
    as (st & Hrun & _).
  apply run_loop_of_time in Hrun.
  rewrite (simulation_of_state prob wash_time g simulation_time st Hrun).
  destruct (_ =? 0); [| discriminate].
  intros [= <-]. reflexivity.
Qed.

(** A run returns exactly when some car arrives. *)
Lemma simulation_returns_iff (prob : Q) (simulation_time wash_time : Z)
    (g : rng) :
  (exists r g', simulation prob simulation_time wash_time g = Return (r, g'))
  <-> arrivals prob g simulation_time <> [].
Proof.
  destruct (nothing_served_yet prob wash_time g (Z.to_nat simulation_time))
    as (st & Hrun & (_ & Hcount & Hlen & _) & Hzero).
  apply run_loop_of_time in Hrun.
  rewrite arrivals_of_time in Hzero, Hlen.
  rewrite (simulation_of_state prob wash_time g simulation_time st Hrun).
  destruct (Z.eqb_spec (AverageTracker.count (avg_wash_time st)) 0) as [E|E].
  - split.
    + intros (r & g' & H). discriminate.
    + intros Hsome. destruct (Hzero E) as [_ Hnone]. contradiction.
  - split.
    + intros _ Hnone. rewrite Hnone in Hlen. simpl in Hlen. lia.
    + intros _. eexists. eexists. reflexivity.
Qed.

(** The results of one run of [simulation(0.004, 6000, 150)]. *)
Lemma batch_run_bounds (g : rng) (count : Z) (avg_time : Q) (g' : rng) :
  simulation float_0_004 6000 150 g = Return ((count, avg_time), g') ->
  1 <= count <= 40 /\ (0 <= avg_time)%Q /\ (avg_time <= 5999)%Q.
Proof.
  intros Hrun.
  destruct (washer_pace float_0_004 150 g ltac:(lia) (Z.to_nat 6000))
    as (st & Hloop & (_ & Hcount & _) & (_ & Htud & Hpace)).
  destruct (waits_bounded float_0_004 150 g (Z.to_nat 6000))
    as (st2 & Hloop2 & _ & Hsum).
  rewrite Hloop in Hloop2. injection Hloop2 as <-.
  apply run_loop_of_time in Hloop.
  rewrite (simulation_of_state float_0_004 150 g 6000 st Hloop) in Hrun.
  destruct (Z.eqb_spec (AverageTracker.count (avg_wash_time st)) 0) as [E|E];
    [discriminate |].
  injection Hrun as <- <- _.
  rewrite Z2Nat.id in Hpace, Hsum by lia.
  split; [lia |].
  apply (Qdiv_bounds _ _ 5999); lia.
Qed.

(** When the loop of [ten_thousand_runs] returns, each of its runs has
    returned. *)
Lemma runs_loop_returns (n : nat) :
  forall (g : rng) (cs : list Z) (avs : list Q)
         (counts : list Z) (averages : list Q) (g' : rng),
    runs_loop n cs avs g = Return ((counts, averages), g') ->
    forall i : nat,
      (i < n)%nat ->
      exists r g1,
        simulation float_0_004 6000 150 (advance (i * draws_per_run) g)
        = Return (r, g1).
Proof.
  induction n as [|n IH]; intros g cs avs counts averages g' Hloop i Hi;
    [lia |].
  cbn [runs_loop] in Hloop.
  destruct (simulation float_0_004 6000 150 g) as [[[c a] g1]|e] eqn:Hfirst;
    [| discriminate].
  destruct i as [|i].
  - cbn [Nat.mul]. rewrite advance_0, Hfirst. eexists. eexists. reflexivity.
  - assert (Hg1 : g1 = advance draws_per_run g).
    { destruct (simulation_returns _ _ _ _ _ _ _ Hfirst)
        as (_ & _ & _ & _ & _ & E). exact E. }
    subst g1.
    destruct (IH _ _ _ _ _ _ Hloop i ltac:(lia)) as (r & g2 & Hrun).
    rewrite advance_advance in Hrun.
    replace (i * draws_per_run + draws_per_run)%nat
      with (S i * draws_per_run)%nat in Hrun by lia.
    exists r, g2. exact Hrun.
Qed.

(** The loop of [ten_thousand_runs] raises nothing but
    [ZeroDivisionError]. *)
Lemma runs_loop_only_ZeroDivisionError (n : nat) :
  forall (g : rng) (cs : list Z) (avs : list Q) (e : exn),
    runs_loop n cs avs g = Raise e -> e = ZeroDivisionError.
Proof.
  induction n as [|n IH]; intros g cs avs e Hloop; [discriminate |].
  cbn [runs_loop] in Hloop.
  destruct (simulation float_0_004 6000 150 g) as [[[c a] g1]|e1] eqn:Hfirst.
  - exact (IH _ _ _ _ Hloop).
  - injection Hloop as <-.
    exact (simulation_only_ZeroDivisionError _ _ _ _ _ Hfirst).
Qed.

(** X14. [ten_thousand_runs] returns exactly when, in each of its 10000
    runs, at least one car arrives; if some run sees no arrival, the whole
    call raises [ZeroDivisionError] and no list is returned. *)
Theorem ten_thousand_runs_returns_iff (g : rng) :
  ((forall i : nat,
       (i < Z.to_nat 10000)%nat ->
       arrivals float_0_004 (advance (i * draws_per_run) g) 6000 <> []) ->
   exists (counts : list Z) (averages : list Q),
     ten_thousand_runs g
     = Return ((counts, averages),
               advance (Z.to_nat 10000 * draws_per_run) g))
  /\ (forall i : nat,
         (i < Z.to_nat 10000)%nat ->
         arrivals float_0_004 (advance (i * draws_per_run) g) 6000 = [] ->
         ten_thousand_runs g = Raise ZeroDivisionError).
Proof.
  split.
  - intros Hall.
    destruct (runs_loop_spec (Z.to_nat 10000) g [] []) as
      (counts & averages & Hloop & _).
    { intros i Hi. apply simulation_returns_iff. exact (Hall i Hi). }
    exists counts, averages. exact Hloop.
  - intros i Hi Hnone. unfold ten_thousand_runs.
    destruct (runs_loop (Z.to_nat 10000) [] [] g)
      as [[[counts averages] g']|e] eqn:Hloop.
    + pose proof (runs_loop_returns _ _ _ _ _ _ _ Hloop i Hi) as Hrun.
      apply simulation_returns_iff in Hrun. contradiction.
    + rewrite (runs_loop_only_ZeroDivisionError _ _ _ _ _ Hloop).
      reflexivity.
Qed.

Lemma arrivals_first_second (prob : Q) (g : rng) (simulation_time : Z) :
  1 <= simulation_time ->
  Qle_bool (stream g (pos g)) prob = true ->
  arrivals prob g simulation_time <> [].
Proof.
  intros Htime Hdraw. rewrite <- arrivals_of_time.
  destruct (arrivals_prefix prob g 1 (Z.to_nat simulation_time))
    as (later & ->); [lia |].
  rewrite (arrivals_succ prob g 0).
  cbn [Z.of_nat]. rewrite Nat.add_0_r, Hdraw. discriminate.
Qed.

Lemma arrivals_none (prob : Q) (g : rng) (simulation_time : Z) :
  (forall n : nat, Qle_bool (stream g n) prob = false) ->
  arrivals prob g simulation_time = [].
Proof.
  intros Hdraws. unfold arrivals.
  induction (range simulation_time) as [|x l IH]; [reflexivity |].
  simpl. rewrite Hdraws. exact IH.
Qed.

Lemma arrivals_constant_zero (k : nat) :
  arrivals float_0_004 (advance k (constant_rng 0)) 6000 <> [].
Proof. apply arrivals_first_second; [lia | reflexivity]. Qed.

Lemma arrivals_constant_half (k : nat) :
  arrivals float_0_004 (advance k (constant_rng (1 # 2))) 6000 = [].
Proof. apply arrivals_none. intros n. reflexivity. Qed.

Lemma ten_thousand_runs_returns_iff_witness :
  (exists (counts : list Z) (averages : list Q),
      ten_thousand_runs (constant_rng 0)
      = Return ((counts, averages),
                advance (Z.to_nat 10000 * draws_per_run) (constant_rng 0)))
  /\ ten_thousand_runs (constant_rng (1 # 2)) = Raise ZeroDivisionError.
Proof.
  split.
  - apply (proj1 (ten_thousand_runs_returns_iff (constant_rng 0))).
    intros i _. apply arrivals_constant_zero.
  - apply (proj2 (ten_thousand_runs_returns_iff (constant_rng (1 # 2)))
                 0%nat ltac:(lia)).
    apply arrivals_constant_half.
Defined.

(** X15. Whenever [ten_thousand_runs] returns, both lists have length
    10000, every count lies between 1 and 40, every average between 0 and
    5999, and 6000 values were drawn per run. *)
Theorem ten_thousand_runs_output_bounds (g : rng)
    (counts : list Z) (averages : list Q) (g' : rng)
    (Hret : ten_thousand_runs g = Return ((counts, averages), g')) :
  length counts = Z.to_nat 10000
  /\ length averages = Z.to_nat 10000
  /\ Forall (fun count => 1 <= count <= 40) counts
  /\ Forall (fun avg_time => (0 <= avg_time)%Q /\ (avg_time <= 5999)%Q)
            averages
  /\ g' = advance (Z.to_nat 10000 * draws_per_run) g.
Proof.
  unfold ten_thousand_runs in Hret.
  destruct (runs_loop_spec (Z.to_nat 10000) g [] []
              (runs_loop_returns _ _ _ _ _ _ _ Hret))
    as (counts' & averages' & Hloop & Hlc & Hla & Hnth).
  rewrite Hret in Hloop. cbn [app] in Hloop.
  assert (Ec : counts = counts') by congruence.
  assert (Ea : averages = averages') by congruence.
  assert (Eg : g' = advance (Z.to_nat 10000 * draws_per_run) g)
    by congruence.
  subst counts' averages'.
  split; [exact Hlc |]. split; [exact Hla |].
  split; [| split; [| exact Eg]].
  - apply Forall_forall. intros c Hc.
    destruct (In_nth _ _ 0 Hc) as (i & Hi & <-).
    rewrite Hlc in Hi.
    exact (proj1 (batch_run_bounds _ _ _ _ (Hnth i Hi))).
  - apply Forall_forall. intros a Ha.
    destruct (In_nth _ _ 0%Q Ha) as (i & Hi & <-).
    rewrite Hla in Hi.
    exact (proj2 (batch_run_bounds _ _ _ _ (Hnth i Hi))).
Qed.

Lemma ten_thousand_runs_output_bounds_witness :
  exists (counts : list Z) (averages : list Q),
    ten_thousand_runs (constant_rng 0)
    = Return ((counts, averages),
              advance (Z.to_nat 10000 * draws_per_run) (constant_rng 0))
    /\ length counts = Z.to_nat 10000
    /\ Forall (fun count => 1 <= count <= 40) counts.
Proof.
  destruct (runs_loop_spec (Z.to_nat 10000) (constant_rng 0) [] []
              (fun i _ => simulation_constant_zero (i * draws_per_run)))
    as (counts & averages & Hloop & _).
  exists counts, averages. split; [exact Hloop |].
  destruct (ten_thousand_runs_output_bounds
              (constant_rng 0) counts averages _ Hloop)
    as (Hlc & _ & Hcounts & _).
  split; [exact Hlc | exact Hcounts].
Defined.

End BatchMoreFacts.
